(** * The gem ledger of the survey platform

    A shallow embedding of the storage facade ([DatabaseStorage]), of the
    table declarations it runs on, of the request handlers that
    orchestrate it and of the figures the dashboard computes from their
    answers, followed by the properties of the ledger and of the
    withdrawal life cycle, the invariants the operations keep, what a
    status code and the security log tell of a request, and what the
    reading routes return.

    Conventions of the embedding.
    - A table is a finite map from its primary key to its rows.  Tables with
      a [serial] key carry the sequence the key is drawn from.
    - The declared constraints are enforced as the database enforces them:
      primary keys, the unique e-mail of a user and the foreign keys raise an
      error, which the handlers' [try]/[catch] turns into a 500 response.
    - Every storage call is a statement of its own: a handler that fails in
      the middle keeps the writes it has already made.  Requests are handled
      one after the other; interleavings of concurrent requests are outside
      the embedding.
    - Integer-valued numbers ([gemBalance], [amount], [reward], keys) are
      kept in [Z], without the 32-bit range of the columns; the only
      fractional arithmetic, the conversion of gems to dollars, is carried
      out in IEEE binary64 ([Number]).
    - A handler is entered past its authorization gate.  The session user the
      gate attaches to the request, the clock, the route parameter after
      [parseInt] and the body as its schema reads it are inputs of the
      handlers; the offerwall routes, which validate nothing, are given an
      integer reward. *)

From Stdlib Require Import ZArith SpecFloat.
From stdpp Require Import gmap strings list fin_maps pretty sorting.

Open Scope Z_scope.

(** ** Values *)

Definition Timestamp := Z.

(** A [jsonb] payload. *)
#[warnings="-register-all"]
Inductive Json :=
| JNull
| JBool (b : bool)
| JNum (n : Z)
| JStr (s : string)
| JArr (items : list Json)
| JObj (fields : list (string * Json)).

(** ** Rows of the tables *)

Module User.
Record t := mk {
  id : string;
  email : string;
  firstName : option string;
  lastName : option string;
  profileImageUrl : option string;
  gemBalance : Z;
  isVerified : bool;
  verificationCode : option string;
  status : string;
  isAdmin : bool;
  createdAt : Timestamp;
  updatedAt : Timestamp }.
End User.
Abbreviation User := User.t.

Module Survey.
Record t := mk {
  id : Z;
  title : string;
  description : string;
  duration : Z;
  reward : Z;
  questions : Json;
  isActive : bool;
  participantCount : Z;
  createdAt : Timestamp }.
End Survey.
Abbreviation Survey := Survey.t.

Module SurveyResponse.
Record t := mk {
  id : Z;
  userId : string;
  surveyId : Z;
  responses : Json;
  completedAt : Timestamp;
  gemAwarded : Z }.
End SurveyResponse.
Abbreviation SurveyResponse := SurveyResponse.t.

Module Transaction.
Record t := mk {
  id : Z;
  userId : string;
  type : string;
  amount : Z;
  description : string;
  surveyId : option Z;
  withdrawalId : option Z;
  offerwallProvider : option string;
  offerwallOfferId : option string;
  createdAt : Timestamp }.
End Transaction.
Abbreviation Transaction := Transaction.t.

Module WithdrawalRequest.
Record t := mk {
  id : Z;
  userId : string;
  amount : Z;
  walletAddress : string;
  status : string;
  adminNotes : option string;
  requestedAt : Timestamp;
  processedAt : option Timestamp;
  processedBy : option string }.
End WithdrawalRequest.
Abbreviation WithdrawalRequest := WithdrawalRequest.t.

Module SecurityLog.
Record t := mk {
  id : Z;
  userId : option string;
  action : string;
  details : option Json;
  ipAddress : option string;
  userAgent : option string;
  createdAt : Timestamp }.
End SecurityLog.
Abbreviation SecurityLog := SecurityLog.t.

(** ** Validated request payloads (the [z.infer] types of the schema) *)

(** An optional, nullable column of an insert schema: [None] is an absent
    key ([undefined]), [Some None] is [null]. *)
Definition Optional (A : Type) := option (option A).

Module UpsertUser.
Record t := mk {
  id : string;
  email : string;
  firstName : Optional string;
  lastName : Optional string;
  profileImageUrl : Optional string }.
End UpsertUser.
Abbreviation UpsertUser := UpsertUser.t.

Module InsertSurveyResponse.
Record t := mk { surveyId : Z; responses : Json }.
End InsertSurveyResponse.
Abbreviation InsertSurveyResponse := InsertSurveyResponse.t.

Module InsertWithdrawalRequest.
Record t := mk { amount : Z; walletAddress : string }.
End InsertWithdrawalRequest.
Abbreviation InsertWithdrawalRequest := InsertWithdrawalRequest.t.

(** [z.enum(["approved", "rejected"])] *)
Inductive Verdict := approved | rejected.

Definition Verdict_str (d : Verdict) : string :=
  match d with approved => "approved" | rejected => "rejected" end.

Module UpdateWithdrawalStatus.
Record t := mk { status : Verdict; adminNotes : option string }.
End UpdateWithdrawalStatus.
Abbreviation UpdateWithdrawalStatus := UpdateWithdrawalStatus.t.

(** [z.enum(["active", "banned", "suspended"])] *)
Inductive AccountStatus := active | banned | suspended.

Definition AccountStatus_str (s : AccountStatus) : string :=
  match s with
  | active => "active" | banned => "banned" | suspended => "suspended"
  end.

Module UpdateUserStatus.
Record t := mk { status : AccountStatus }.
End UpdateUserStatus.
Abbreviation UpdateUserStatus := UpdateUserStatus.t.

(** The argument of [createTransaction]. *)
Module NewTransaction.
Record t := mk {
  userId : string;
  type : string;
  amount : Z;
  description : string;
  surveyId : option Z;
  withdrawalId : option Z;
  offerwallProvider : option string;
  offerwallOfferId : option string }.
End NewTransaction.
Abbreviation NewTransaction := NewTransaction.t.

(** The argument of [createSecurityLog]. *)
Module NewSecurityLog.
Record t := mk {
  userId : option string;
  action : string;
  details : option Json;
  ipAddress : option string;
  userAgent : option string }.
End NewSecurityLog.
Abbreviation NewSecurityLog := NewSecurityLog.t.

(** ** The database *)

(** A table keyed by a [serial] column, with its sequence. *)
Record Table (R : Type) := mkTable {
  rows : gmap Z R;
  nextval : Z }.
Arguments mkTable {R}.
Arguments rows {R}.
Arguments nextval {R}.

Record Store := mkStore {
  users : gmap string User;
  surveys : Table Survey;
  surveyResponses : Table SurveyResponse;
  transactions : Table Transaction;
  withdrawalRequests : Table WithdrawalRequest;
  securityLogs : Table SecurityLog }.

Definition emptyTable {R} : Table R := mkTable ∅ 1.

Definition emptyStore : Store :=
  mkStore ∅ emptyTable emptyTable emptyTable emptyTable emptyTable.

(** [db.select().from(t)]: the rows, in no promised order. *)
Definition select {R} (t : Table R) : list R := (map_to_list (rows t)).*2.

Definition selectUsers (m : gmap string User) : list User := (map_to_list m).*2.

(** What a statement or an expression may throw. *)
Inductive Thrown :=
| UniqueViolation (constraint : string)
| ForeignKeyViolation (constraint : string)
| TypeError (message : string)
| ZodError.

Inductive Outcome (A : Type) :=
| Returned (a : A)
| Threw (e : Thrown).
Arguments Returned {A}.
Arguments Threw {A}.

(** A computation against the database: it returns or throws, and leaves
    the store as its completed statements made it. *)
Definition Db (A : Type) : Type := Store → Outcome A * Store.

#[global] Instance Db_ret : MRet Db := λ A a st, (Returned a, st).

#[global] Instance Db_bind : MBind Db := λ A B f m st,
  match m st with
  | (Returned a, st') => f a st'
  | (Threw e, st') => (Threw e, st')
  end.

Definition throw {A} (e : Thrown) : Db A := λ st, (Threw e, st).
Definition gets {A} (f : Store → A) : Db A := λ st, (Returned (f st), st).
Definition modify (f : Store → Store) : Db unit := λ st, (Returned tt, f st).

Definition set_users (f : gmap string User → gmap string User) (st : Store) : Store :=
  mkStore (f (users st)) (surveys st) (surveyResponses st) (transactions st)
          (withdrawalRequests st) (securityLogs st).
Definition set_surveys (f : Table Survey → Table Survey) (st : Store) : Store :=
  mkStore (users st) (f (surveys st)) (surveyResponses st) (transactions st)
          (withdrawalRequests st) (securityLogs st).
Definition set_surveyResponses
    (f : Table SurveyResponse → Table SurveyResponse) (st : Store) : Store :=
  mkStore (users st) (surveys st) (f (surveyResponses st)) (transactions st)
          (withdrawalRequests st) (securityLogs st).
Definition set_transactions
    (f : Table Transaction → Table Transaction) (st : Store) : Store :=
  mkStore (users st) (surveys st) (surveyResponses st) (f (transactions st))
          (withdrawalRequests st) (securityLogs st).
Definition set_withdrawalRequests
    (f : Table WithdrawalRequest → Table WithdrawalRequest) (st : Store) : Store :=
  mkStore (users st) (surveys st) (surveyResponses st) (transactions st)
          (f (withdrawalRequests st)) (securityLogs st).
Definition set_securityLogs
    (f : Table SecurityLog → Table SecurityLog) (st : Store) : Store :=
  mkStore (users st) (surveys st) (surveyResponses st) (transactions st)
          (withdrawalRequests st) (f (securityLogs st)).

(** Drawing the next key of a sequence.  The sequence moves on whether or
    not the insert that asked for the key goes through. *)
Definition advance {R} (t : Table R) : Table R := mkTable (rows t) (nextval t + 1).

(** Storing a row under a key it has already drawn. *)
Definition store_row {R} (i : Z) (r : R) (t : Table R) : Table R :=
  mkTable (<[i := r]> (rows t)) (nextval t).

(** [references(() => users.id)] *)
Definition references_user (constraint : string) (uid : string) : Db unit := λ st,
  match users st !! uid with
  | Some _ => (Returned tt, st)
  | None => (Threw (ForeignKeyViolation constraint), st)
  end.

(** [references(() => surveys.id)] *)
Definition references_survey (constraint : string) (sid : Z) : Db unit := λ st,
  match rows (surveys st) !! sid with
  | Some _ => (Returned tt, st)
  | None => (Threw (ForeignKeyViolation constraint), st)
  end.

(** A nullable foreign key is checked only when it holds a value. *)
Definition references_opt {K} (check : K → Db unit) (k : option K) : Db unit :=
  match k with
  | Some k => check k
  | None => mret tt
  end.

(** [primaryKey()] of a serial table. *)
Definition primary_key {R} (constraint : string) (t : Store → Table R) (i : Z) : Db unit :=
  λ st,
  match rows (t st) !! i with
  | Some _ => (Threw (UniqueViolation constraint), st)
  | None => (Returned tt, st)
  end.

(** ** The storage facade ([DatabaseStorage]) *)

Definition operator_email : string := "5minutessurvey@gmail.com".

(** [email: varchar("email").unique()]: no row other than [self] holds [e]. *)
Definition email_taken (m : gmap string User) (self : string) (e : string) : bool :=
  bool_decide (map_Exists (λ k u, k ≠ self ∧ User.email u = e) m).

Definition getUser (id : string) : Db (option User) :=
  gets (λ st, users st !! id).

(** A key of [values()] that is absent or [null] stores NULL. *)
Definition inserted {A} (v : Optional A) : option A :=
  match v with Some (Some a) => Some a | _ => None end.

(** A key of [set()] that is absent keeps the stored value. *)
Definition updated {A} (v : Optional A) (old : option A) : option A :=
  match v with Some a => a | None => old end.

Definition upsertUser (userData : UpsertUser) (now : Timestamp) : Db User := λ st,
  match users st !! UpsertUser.id userData with
  | None =>
      if email_taken (users st) (UpsertUser.id userData) (UpsertUser.email userData)
      then (Threw (UniqueViolation "users_email_unique"), st)
      else
        let user :=
          User.mk (UpsertUser.id userData) (UpsertUser.email userData)
            (inserted (UpsertUser.firstName userData))
            (inserted (UpsertUser.lastName userData))
            (inserted (UpsertUser.profileImageUrl userData))
            0 false None "active"
            (bool_decide (UpsertUser.email userData = operator_email))
            now now in
        (Returned user, set_users (insert (UpsertUser.id userData) user) st)
  | Some old =>
      if email_taken (users st) (UpsertUser.id userData) (UpsertUser.email userData)
      then (Threw (UniqueViolation "users_email_unique"), st)
      else
        let user :=
          User.mk (UpsertUser.id userData) (UpsertUser.email userData)
            (updated (UpsertUser.firstName userData) (User.firstName old))
            (updated (UpsertUser.lastName userData) (User.lastName old))
            (updated (UpsertUser.profileImageUrl userData) (User.profileImageUrl old))
            (User.gemBalance old) (User.isVerified old) (User.verificationCode old)
            (User.status old) (User.isAdmin old)
            (User.createdAt old) now in
        (Returned user, set_users (insert (UpsertUser.id userData) user) st)
  end.

Definition with_gemBalance (amount : Z) (now : Timestamp) (u : User) : User :=
  User.mk (User.id u) (User.email u) (User.firstName u) (User.lastName u)
    (User.profileImageUrl u) amount (User.isVerified u) (User.verificationCode u)
    (User.status u) (User.isAdmin u) (User.createdAt u) now.

Definition updateUserGemBalance (userId : string) (amount : Z) (now : Timestamp) : Db unit :=
  modify (set_users (alter (with_gemBalance amount now) userId)).

Definition with_status (s : string) (now : Timestamp) (u : User) : User :=
  User.mk (User.id u) (User.email u) (User.firstName u) (User.lastName u)
    (User.profileImageUrl u) (User.gemBalance u) (User.isVerified u)
    (User.verificationCode u) s (User.isAdmin u) (User.createdAt u) now.

Definition updateUserStatus (userId : string) (statusUpdate : UpdateUserStatus)
    (now : Timestamp) : Db (option User) :=
  modify (set_users
    (alter (with_status (AccountStatus_str (UpdateUserStatus.status statusUpdate)) now)
           userId));;
  gets (λ st, users st !! userId).

Definition verified (now : Timestamp) (u : User) : User :=
  User.mk (User.id u) (User.email u) (User.firstName u) (User.lastName u)
    (User.profileImageUrl u) (User.gemBalance u) true None
    (User.status u) (User.isAdmin u) (User.createdAt u) now.

Definition verifyUser (userId : string) (now : Timestamp) : Db unit :=
  modify (set_users (alter (verified now) userId)).

(** [desc(column)] orderings. *)
Definition desc {R} (column : R → Timestamp) : relation R :=
  λ a b, column b ≤ column a.

#[global] Instance desc_dec {R} (column : R → Timestamp) : RelDecision (desc column).
Proof. intros a b. unfold desc. apply _. Defined.

Definition orderBy {R} (ord : relation R) `{!RelDecision ord} (l : list R) : list R :=
  merge_sort ord l.

Definition getActiveSurveys : Db (list Survey) :=
  gets (λ st,
    orderBy (desc Survey.createdAt)
      (filter (λ s, Survey.isActive s = true) (select (surveys st)))).

Definition getSurvey (id : Z) : Db (option Survey) :=
  gets (λ st, rows (surveys st) !! id).

Definition with_participantCount (n : Z) (s : Survey) : Survey :=
  Survey.mk (Survey.id s) (Survey.title s) (Survey.description s) (Survey.duration s)
    (Survey.reward s) (Survey.questions s) (Survey.isActive s) n (Survey.createdAt s).

Definition alter_rows {R} (f : R → R) (i : Z) (t : Table R) : Table R :=
  mkTable (alter f i (rows t)) (nextval t).

Definition createSurveyResponse (userId : string) (response : InsertSurveyResponse)
    (gemAwarded : Z) (now : Timestamp) : Db SurveyResponse :=
  let surveyId := InsertSurveyResponse.surveyId response in
  let responses := InsertSurveyResponse.responses response in
  i ← gets (λ st, nextval (surveyResponses st));
  modify (set_surveyResponses advance);;
  references_user "survey_responses_user_id_users_id_fk" userId;;
  references_survey "survey_responses_survey_id_surveys_id_fk" surveyId;;
  primary_key "survey_responses_pkey" surveyResponses i;;
  let surveyResponse := SurveyResponse.mk i userId surveyId responses now gemAwarded in
  modify (set_surveyResponses (store_row i surveyResponse));;
  (* Update user gem balance *)
  user ← getUser userId;
  match user with
  | Some user => updateUserGemBalance userId (User.gemBalance user + gemAwarded) now
  | None => mret tt
  end;;
  (* Update survey participant count *)
  survey ← getSurvey surveyId;
  match survey with
  | Some survey =>
      modify (set_surveys
        (alter_rows (with_participantCount (Survey.participantCount survey + 1)) surveyId))
  | None => mret tt
  end;;
  mret surveyResponse.

Definition getUserSurveyResponses (userId : string) : Db (list SurveyResponse) :=
  gets (λ st,
    orderBy (desc SurveyResponse.completedAt)
      (filter (λ r, SurveyResponse.userId r = userId) (select (surveyResponses st)))).

(** The row [values(transaction)] stores: the key from the sequence,
    [createdAt] from [defaultNow()]. *)
Definition transaction_row (i : Z) (transaction : NewTransaction) (now : Timestamp)
    : Transaction :=
  Transaction.mk i (NewTransaction.userId transaction)
    (NewTransaction.type transaction) (NewTransaction.amount transaction)
    (NewTransaction.description transaction) (NewTransaction.surveyId transaction)
    (NewTransaction.withdrawalId transaction)
    (NewTransaction.offerwallProvider transaction)
    (NewTransaction.offerwallOfferId transaction) now.

Definition createTransaction (transaction : NewTransaction) (now : Timestamp)
    : Db Transaction :=
  i ← gets (λ st, nextval (transactions st));
  modify (set_transactions advance);;
  references_user "transactions_user_id_users_id_fk" (NewTransaction.userId transaction);;
  references_opt (references_survey "transactions_survey_id_surveys_id_fk")
    (NewTransaction.surveyId transaction);;
  primary_key "transactions_pkey" transactions i;;
  let newTransaction := transaction_row i transaction now in
  modify (set_transactions (store_row i newTransaction));;
  mret newTransaction.

Definition getUserTransactions (userId : string) (limit : nat) : Db (list Transaction) :=
  gets (λ st,
    take limit
      (orderBy (desc Transaction.createdAt)
        (filter (λ t, Transaction.userId t = userId) (select (transactions st))))).

(** The row [values({ userId, ...request })] stores; [status] takes its
    default, ["pending"]. *)
Definition withdrawal_row (i : Z) (userId : string) (request : InsertWithdrawalRequest)
    (now : Timestamp) : WithdrawalRequest :=
  WithdrawalRequest.mk i userId (InsertWithdrawalRequest.amount request)
    (InsertWithdrawalRequest.walletAddress request) "pending" None now None None.

Definition createWithdrawalRequest (userId : string) (request : InsertWithdrawalRequest)
    (now : Timestamp) : Db WithdrawalRequest :=
  i ← gets (λ st, nextval (withdrawalRequests st));
  modify (set_withdrawalRequests advance);;
  references_user "withdrawal_requests_user_id_users_id_fk" userId;;
  primary_key "withdrawal_requests_pkey" withdrawalRequests i;;
  let withdrawal := withdrawal_row i userId request now in
  modify (set_withdrawalRequests (store_row i withdrawal));;
  mret withdrawal.

Definition getPendingWithdrawals : Db (list WithdrawalRequest) :=
  gets (λ st,
    orderBy (desc WithdrawalRequest.requestedAt)
      (filter (λ w, WithdrawalRequest.status w = "pending")
              (select (withdrawalRequests st)))).

Definition processed (status : UpdateWithdrawalStatus) (processedBy : string)
    (now : Timestamp) (w : WithdrawalRequest) : WithdrawalRequest :=
  WithdrawalRequest.mk (WithdrawalRequest.id w) (WithdrawalRequest.userId w)
    (WithdrawalRequest.amount w) (WithdrawalRequest.walletAddress w)
    (Verdict_str (UpdateWithdrawalStatus.status status))
    (match UpdateWithdrawalStatus.adminNotes status with
     | Some notes => Some notes
     | None => WithdrawalRequest.adminNotes w
     end)
    (WithdrawalRequest.requestedAt w) (Some now) (Some processedBy).

Definition updateWithdrawalStatus (id : Z) (status : UpdateWithdrawalStatus)
    (processedBy : string) (now : Timestamp) : Db (option WithdrawalRequest) :=
  row ← gets (λ st, rows (withdrawalRequests st) !! id);
  match row with
  | None => mret None
  | Some old =>
      references_user "withdrawal_requests_processed_by_users_id_fk" processedBy;;
      let withdrawal := processed status processedBy now old in
      modify (set_withdrawalRequests (store_row id withdrawal));;
      mret (Some withdrawal)
  end.

Definition getUserPendingWithdrawal (userId : string) : Db (option WithdrawalRequest) :=
  gets (λ st,
    head (filter (λ w, WithdrawalRequest.userId w = userId
                       ∧ WithdrawalRequest.status w = "pending")
                 (select (withdrawalRequests st)))).

Definition securityLog_row (i : Z) (log : NewSecurityLog) (now : Timestamp)
    : SecurityLog :=
  SecurityLog.mk i (NewSecurityLog.userId log) (NewSecurityLog.action log)
    (NewSecurityLog.details log) (NewSecurityLog.ipAddress log)
    (NewSecurityLog.userAgent log) now.

Definition createSecurityLog (log : NewSecurityLog) (now : Timestamp) : Db SecurityLog :=
  i ← gets (λ st, nextval (securityLogs st));
  modify (set_securityLogs advance);;
  references_opt (references_user "security_logs_user_id_users_id_fk")
    (NewSecurityLog.userId log);;
  primary_key "security_logs_pkey" securityLogs i;;
  let securityLog := securityLog_row i log now in
  modify (set_securityLogs (store_row i securityLog));;
  mret securityLog.

Definition getAllUsers : Db (list User) :=
  gets (λ st, orderBy (desc User.createdAt) (selectUsers (users st))).

(** ** JavaScript numbers with a fraction

    IEEE binary64 values, in the Standard Library's specification of the
    format, and [Number.prototype.toFixed] as ECMA-262 defines it. *)

Module Number.
Definition prec : Z := 53.
Definition emax : Z := 1024.

Definition t := spec_float.

(** The number an integer converts to (round to nearest, ties to even). *)
Definition of_Z (z : Z) : t := binary_normalize prec emax z 0 false.

Definition mul : t → t → t := SFmul prec emax.

Definition eqb (x y : t) : bool := SFeqb x y.

(** The literal [0.05], that is 0x1.999999999999ap-5. *)
Definition lit_0_05 : t := S754_finite false 7205759403792794 (-57).

(** Decimal digits of a natural number, most significant first. *)
Definition digits (n : Z) : string := pretty (Z.to_N n).

Definition zeros (k : nat) : string := String.concat "" (replicate k "0").

(** The integer nearest to [m * 2^e * 10^f]; of two, the larger. *)
Definition scaled_nearest (m : positive) (e : Z) (f : nat) : Z :=
  let scaled := Z.pos m * 10 ^ Z.of_nat f in
  if 0 <=? e then scaled * 2 ^ e
  else (2 * scaled + 2 ^ (- e)) / (2 * 2 ^ (- e)).

(** Steps 9 and 10 of [toFixed]: the digits of [n] with a point before
    the last [f] of them. *)
Definition fixed_digits (n : Z) (f : nat) : string :=
  let m := digits n in
  match f with
  | O => m
  | _ =>
      let k := String.length m in
      let m := if (k <=? f)%nat then zeros (f + 1 - k) +:+ m else m in
      let k := String.length m in
      String.substring 0 (k - f) m +:+ "." +:+ String.substring (k - f) f m
  end.

(** [10^21 <= m * 2^e] *)
Definition at_least_1e21 (m : positive) (e : Z) : bool :=
  if 0 <=? e then 10 ^ 21 <=? Z.pos m * 2 ^ e
  else 10 ^ 21 * 2 ^ (- e) <=? Z.pos m.

(** [Number::toString] for an integer-valued [x >= 10^21], given as the
    integer [X] it denotes: the shortest [s] of [k] digits with
    [s * 10^(n-k)] converting back to [x], the closest one if several,
    the even one if two are as close; written in exponent form. *)
Definition converts_back (x : t) (s p : Z) : bool := eqb (of_Z (s * 10 ^ p)) x.

Definition pick (x : t) (X lo p : Z) : option Z :=
  let hi := lo + 1 in
  match converts_back x lo p, converts_back x hi p with
  | true, true =>
      let dlo := X - lo * 10 ^ p in
      let dhi := hi * 10 ^ p - X in
      if dlo <? dhi then Some lo
      else if dhi <? dlo then Some hi
      else if Z.even lo then Some lo else Some hi
  | true, false => Some lo
  | false, true => Some hi
  | false, false => None
  end.

Fixpoint shortest (fuel : nat) (x : t) (X n k : Z) : Z * Z * Z :=
  let p := n - k in
  match pick x X (X / 10 ^ p) p with
  | Some s => if s =? 10 ^ k then (1, 1, n + 1) else (s, k, n)
  | None =>
      match fuel with
      | O => (X / 10 ^ p, k, n)
      | S fuel => shortest fuel x X n (k + 1)
      end
  end.

Definition exponent_form (x : t) (X : Z) : string :=
  let n := Z.of_nat (String.length (digits X)) in
  let '(s, k, n) := shortest 16 x X n 1 in
  let d := digits s in
  let e := digits (n - 1) in
  if k =? 1 then d +:+ "e+" +:+ e
  else String.substring 0 1 d +:+ "." +:+ String.substring 1 (Z.to_nat k - 1) d +:+ "e+" +:+ e.

Definition toFixed (x : t) (fractionDigits : nat) : string :=
  match x with
  | S754_nan => "NaN"
  | S754_infinity false => "Infinity"
  | S754_infinity true => "-Infinity"
  | S754_zero _ => fixed_digits 0 fractionDigits
  | S754_finite sign m e =>
      let s := if sign then "-" else "" in
      if at_least_1e21 m e
      then s +:+ exponent_form (S754_finite false m e) (Z.pos m * 2 ^ e)
      else s +:+ fixed_digits (scaled_nearest m e fractionDigits) fractionDigits
  end.
End Number.

Module UserStats.
Record t := mk {
  totalUsers : nat;
  pendingWithdrawals : nat;
  totalPayouts : string }.
End UserStats.
Abbreviation UserStats := UserStats.t.

Definition getUserStats : Db UserStats :=
  totalUsersResult ← gets (λ st, selectUsers (users st));
  pendingWithdrawalsResult ← gets (λ st,
    filter (λ w, WithdrawalRequest.status w = "pending") (select (withdrawalRequests st)));
  (* Calculate total payouts (approved withdrawals) *)
  approvedWithdrawals ← gets (λ st,
    filter (λ w, WithdrawalRequest.status w = "approved") (select (withdrawalRequests st)));
  let totalPayouts :=
    fold_left (λ sum w, sum + WithdrawalRequest.amount w) approvedWithdrawals 0 in
  mret (UserStats.mk
    (length totalUsersResult)
    (length pendingWithdrawalsResult)
    (Number.toFixed (Number.mul (Number.of_Z totalPayouts) Number.lit_0_05) 2)).

(** ** The request handlers ([registerRoutes]) *)

Module Request.
(** What a handler reads of the request besides its parameters and body:
    the session user the authorization gate attached, the peer address
    and the User-Agent header. *)
Record t := mk {
  user : User;
  ip : option string;
  userAgent : option string }.
End Request.
Abbreviation Request := Request.t.

(** [res.json(body)] and [res.status(code).json({ message })]. *)
Inductive Response (A : Type) :=
| json (body : A)
| status_json (code : Z) (message : string).
Arguments json {A}.
Arguments status_json {A}.

Definition statusCode {A} (r : Response A) : Z :=
  match r with
  | json _ => 200
  | status_json code _ => code
  end.

Definition Handler (A : Type) : Type := Store → Response A * Store.

(** [try { ... } catch (error) { res.status(500).json({ message }) }] *)
Definition try_catch {A} (body : Db (Response A)) (message : string) : Handler A := λ st,
  match body st with
  | (Returned r, st') => (r, st')
  | (Threw _, st') => (status_json 500 message, st')
  end.

(** [schema.parse(input)]: the validated value, or a throw when the schema
    refuses the input.  An input is given as what its schema makes of it:
    [None] when it is refused. *)
Definition parse {A} (input : option A) : Db A :=
  match input with
  | Some validated => mret validated
  | None => throw ZodError
  end.

(** [Array.prototype.some] *)
Definition some {A} (p : A → bool) (l : list A) : bool := existsb p l.

(** POST /api/surveys/:id/complete *)
Definition postSurveyComplete (req : Request) (surveyId : Z) (responses : option Json)
    (now : Timestamp) : Handler (SurveyResponse * Z) :=
  try_catch (
    let userId := User.id (Request.user req) in
    (* Validate request body *)
    validatedData ← parse (InsertSurveyResponse.mk surveyId <$> responses);
    (* Get survey to determine reward *)
    survey ← getSurvey surveyId;
    match survey with
    | None => mret (status_json 404 "Survey not found")
    | Some survey =>
        (* Check if user already completed this survey *)
        existingResponses ← getUserSurveyResponses userId;
        let alreadyCompleted :=
          some (λ r, bool_decide (SurveyResponse.surveyId r = surveyId))
               existingResponses in
        if alreadyCompleted
        then mret (status_json 400 "Survey already completed")
        else
          response ← createSurveyResponse userId validatedData (Survey.reward survey) now;
          createTransaction
            (NewTransaction.mk userId "survey_reward" (Survey.reward survey)
               ("Survey completed: " +:+ Survey.title survey)
               (Some surveyId) None None None) now;;
          createSecurityLog
            (NewSecurityLog.mk (Some userId) "survey_completed"
               (Some (JObj [("surveyId", JNum surveyId);
                            ("reward", JNum (Survey.reward survey))]))
               (Request.ip req) (Request.userAgent req)) now;;
          mret (json (response, Survey.reward survey))
    end)
    "Failed to complete survey".

(** POST /api/withdrawals *)
Definition postWithdrawals (req : Request) (body : option InsertWithdrawalRequest)
    (now : Timestamp) : Handler WithdrawalRequest :=
  try_catch (
    let userId := User.id (Request.user req) in
    let user := Request.user req in
    (* Validate request body *)
    validatedData ← parse body;
    let amount := InsertWithdrawalRequest.amount validatedData in
    (* Check if user has pending withdrawal *)
    pendingWithdrawal ← getUserPendingWithdrawal userId;
    match pendingWithdrawal with
    | Some _ => mret (status_json 400 "You already have a pending withdrawal request")
    | None =>
        (* Check if user has enough gems *)
        if User.gemBalance user <? amount
        then mret (status_json 400 "Insufficient gem balance")
        (* Minimum withdrawal check *)
        else if amount <? 100
        then mret (status_json 400 "Minimum withdrawal amount is 100 gems")
        else
          withdrawal ← createWithdrawalRequest userId validatedData now;
          createTransaction
            (NewTransaction.mk userId "withdrawal_request" (- amount)
               ("Withdrawal requested: " +:+ pretty amount +:+ " gems")
               None (Some (WithdrawalRequest.id withdrawal)) None None) now;;
          (* Update user gem balance (deduct requested amount) *)
          updateUserGemBalance userId (User.gemBalance user - amount) now;;
          createSecurityLog
            (NewSecurityLog.mk (Some userId) "withdrawal_requested"
               (Some (JObj [("amount", JNum amount);
                            ("walletAddress",
                             JStr (InsertWithdrawalRequest.walletAddress validatedData))]))
               (Request.ip req) (Request.userAgent req)) now;;
          mret (json withdrawal)
    end)
    "Failed to create withdrawal request".

(** A property of an object literal that may be [undefined]. *)
Definition field {A} (name : string) (inj : A → Json) (v : option A)
    : list (string * Json) :=
  match v with Some a => [(name, inj a)] | None => [] end.

(** POST /api/offerwall/complete *)
Definition postOfferwallComplete (req : Request) (offerId provider : option string)
    (reward : Z) (title : string) (now : Timestamp) : Handler Z :=
  try_catch (
    let userId := User.id (Request.user req) in
    (* Award gems to user *)
    let user := Request.user req in
    updateUserGemBalance userId (User.gemBalance user + reward) now;;
    createTransaction
      (NewTransaction.mk userId "offerwall_reward" reward ("Offerwall: " +:+ title)
         None None provider offerId) now;;
    createSecurityLog
      (NewSecurityLog.mk (Some userId) "offerwall_completed"
         (Some (JObj (field "offerId" JStr offerId ++ field "provider" JStr provider
                      ++ [("reward", JNum reward); ("title", JStr title)])))
         (Request.ip req) (Request.userAgent req)) now;;
    mret (json reward))
    "Failed to complete offerwall".

(** [description || "Offerwall earnings"] *)
Definition or_default (description : option string) (default : string) : string :=
  match description with
  | Some d => if bool_decide (d = "") then default else d
  | None => default
  end.

(** POST /api/offerwall/earnings *)
Definition postOfferwallEarnings (req : Request) (amount : Z)
    (description : option string) (now : Timestamp) : Handler Z :=
  try_catch (
    let userId := User.id (Request.user req) in
    (* Award gems to user *)
    let user := Request.user req in
    updateUserGemBalance userId (User.gemBalance user + amount) now;;
    createTransaction
      (NewTransaction.mk userId "offerwall_reward" amount
         (or_default description "Offerwall earnings") None None None None) now;;
    createSecurityLog
      (NewSecurityLog.mk (Some userId) "offerwall_earnings"
         (Some (JObj ([("amount", JNum amount)] ++ field "description" JStr description)))
         (Request.ip req) (Request.userAgent req)) now;;
    mret (json amount))
    "Failed to process earnings".

(** PATCH /api/admin/withdrawals/:id *)
Definition patchAdminWithdrawal (req : Request) (withdrawalId : Z)
    (body : option UpdateWithdrawalStatus) (now : Timestamp)
    : Handler WithdrawalRequest :=
  try_catch (
    let adminId := User.id (Request.user req) in
    (* Validate request body *)
    validatedData ← parse body;
    let status := UpdateWithdrawalStatus.status validatedData in
    withdrawal ← updateWithdrawalStatus withdrawalId validatedData adminId now;
    match withdrawal with
    | None =>
        (* [withdrawal.userId] on [undefined] *)
        throw (TypeError "Cannot read properties of undefined (reading 'userId')")
    | Some withdrawal =>
        createTransaction
          (NewTransaction.mk (WithdrawalRequest.userId withdrawal)
             ("withdrawal_" +:+ Verdict_str status)
             (match status with
              | approved => 0
              | rejected => WithdrawalRequest.amount withdrawal
              end)
             ("Withdrawal " +:+ Verdict_str status +:+ ": "
              +:+ pretty (WithdrawalRequest.amount withdrawal) +:+ " gems")
             None (Some (WithdrawalRequest.id withdrawal)) None None) now;;
        (* If rejected, return gems to user *)
        match status with
        | rejected =>
            user ← getUser (WithdrawalRequest.userId withdrawal);
            match user with
            | Some user =>
                updateUserGemBalance (WithdrawalRequest.userId withdrawal)
                  (User.gemBalance user + WithdrawalRequest.amount withdrawal) now
            | None => mret tt
            end
        | approved => mret tt
        end;;
        createSecurityLog
          (NewSecurityLog.mk (Some adminId) ("withdrawal_" +:+ Verdict_str status)
             (Some (JObj ([("withdrawalId", JNum withdrawalId);
                           ("amount", JNum (WithdrawalRequest.amount withdrawal));
                           ("userId", JStr (WithdrawalRequest.userId withdrawal))]
                          ++ field "notes" JStr
                               (UpdateWithdrawalStatus.adminNotes validatedData))))
             (Request.ip req) (Request.userAgent req)) now;;
        mret (json withdrawal)
    end)
    "Failed to update withdrawal".

(** PATCH /api/admin/users/:id/status *)
Definition patchAdminUserStatus (req : Request) (userId : string)
    (body : option UpdateUserStatus) (now : Timestamp) : Handler (option User) :=
  try_catch (
    let adminId := User.id (Request.user req) in
    (* Validate request body *)
    validatedData ← parse body;
    user ← updateUserStatus userId validatedData now;
    createSecurityLog
      (NewSecurityLog.mk (Some adminId) "user_status_changed"
         (Some (JObj [("targetUserId", JStr userId);
                      ("newStatus",
                       JStr (AccountStatus_str (UpdateUserStatus.status validatedData)))]))
         (Request.ip req) (Request.userAgent req)) now;;
    mret (json user))
    "Failed to update user status".

(** GET /api/admin/stats *)
Definition getAdminStats : Handler UserStats :=
  try_catch (stats ← getUserStats; mret (json stats)) "Failed to fetch stats".

(** ** The reading routes *)

(** GET /api/surveys *)
Definition getSurveys : Handler (list Survey) :=
  try_catch (active ← getActiveSurveys; mret (json active)) "Failed to fetch surveys".

(** GET /api/transactions; [getUserTransactions] is called with its default
    limit, 10. *)
Definition getTransactions (req : Request) : Handler (list Transaction) :=
  try_catch (
    let userId := User.id (Request.user req) in
    recent ← getUserTransactions userId 10;
    mret (json recent))
    "Failed to fetch transactions".

(** GET /api/withdrawals/pending *)
Definition getWithdrawalsPending (req : Request) : Handler (option WithdrawalRequest) :=
  try_catch (
    let userId := User.id (Request.user req) in
    pendingWithdrawal ← getUserPendingWithdrawal userId;
    mret (json pendingWithdrawal))
    "Failed to fetch pending withdrawal".

(** GET /api/admin/users *)
Definition getAdminUsers : Handler (list User) :=
  try_catch (all ← getAllUsers; mret (json all)) "Failed to fetch users".

(** GET /api/admin/withdrawals *)
Definition getAdminWithdrawals : Handler (list WithdrawalRequest) :=
  try_catch (pending ← getPendingWithdrawals; mret (json pending))
    "Failed to fetch withdrawals".

(** ** The figures of the dashboard

    [Dashboard] computes its counts from the body of GET /api/transactions. *)

Definition completedSurveys (transactions : list Transaction) : nat :=
  length (filter (λ t, Transaction.type t = "survey_reward") transactions).

Definition completedOffers (transactions : list Transaction) : nat :=
  length (filter (λ t, Transaction.type t = "offerwall_reward") transactions).

(** ** The operations of the system *)

(** The store a handler leaves. *)
Definition run {A} (h : Handler A) (st : Store) : Store := (h st).2.

(** The operations that write to the store: the handlers that do, and the
    two storage calls left to the sign-in path. *)
Inductive Operation :=
| CompleteSurvey (req : Request) (surveyId : Z) (responses : option Json)
| RequestWithdrawal (req : Request) (body : option InsertWithdrawalRequest)
| CompleteOffer (req : Request) (offerId provider : option string) (reward : Z)
    (title : string)
| ReportEarnings (req : Request) (amount : Z) (description : option string)
| Adjudicate (req : Request) (withdrawalId : Z) (body : option UpdateWithdrawalStatus)
| SetUserStatus (req : Request) (userId : string) (body : option UpdateUserStatus)
| SignIn (userData : UpsertUser)
| Verify (userId : string).

Definition perform (op : Operation) (now : Timestamp) (st : Store) : Store :=
  match op with
  | CompleteSurvey req surveyId responses =>
      run (postSurveyComplete req surveyId responses now) st
  | RequestWithdrawal req body => run (postWithdrawals req body now) st
  | CompleteOffer req offerId provider reward title =>
      run (postOfferwallComplete req offerId provider reward title now) st
  | ReportEarnings req amount description =>
      run (postOfferwallEarnings req amount description now) st
  | Adjudicate req withdrawalId body =>
      run (patchAdminWithdrawal req withdrawalId body now) st
  | SetUserStatus req userId body =>
      run (patchAdminUserStatus req userId body now) st
  | SignIn userData => (upsertUser userData now st).2
  | Verify userId => (verifyUser userId now st).2
  end.

(** A run of operations, each at its time. *)
Definition perform_all (steps : list (Operation * Timestamp)) (st : Store) : Store :=
  foldl (λ st step, perform step.1 step.2 st) st steps.

Definition is_adjudication (op : Operation) : bool :=
  match op with Adjudicate _ _ _ => true | _ => false end.

(** ** Vocabulary of the properties *)

(** A sequence hands out each key once, so in a database filled through the
    storage facade every key of a serial table lies below its sequence. *)
Definition ahead {R} (t : Table R) : Prop :=
  map_Forall (λ i _, i < nextval t) (rows t).

Definition sequences_ahead (st : Store) : Prop :=
  ahead (surveys st) ∧ ahead (surveyResponses st) ∧ ahead (transactions st)
  ∧ ahead (withdrawalRequests st) ∧ ahead (securityLogs st).

(** The user has a response to the survey on record. *)
Definition responded (st : Store) (userId : string) (surveyId : Z) : Prop :=
  ∃ i r, rows (surveyResponses st) !! i = Some r
         ∧ SurveyResponse.userId r = userId
         ∧ SurveyResponse.surveyId r = surveyId.

(** The user has a pending withdrawal on record. *)
Definition has_pending (st : Store) (userId : string) : Prop :=
  ∃ i w, rows (withdrawalRequests st) !! i = Some w
         ∧ WithdrawalRequest.userId w = userId
         ∧ WithdrawalRequest.status w = "pending".

(** Row [i] of the withdrawal table is [w]. *)
Definition withdrawal_is (i : Z) (w : WithdrawalRequest) (st : Store) : Prop :=
  rows (withdrawalRequests st) !! i = Some w.

(** The rows of a table that satisfy a condition, as a table. *)
Definition rows_where {R} (P : R → Prop) `{!∀ r, Decision (P r)} (t : Table R)
    : gmap Z R :=
  filter (λ kr, P kr.2) (rows t).


(** No stored user holds the e-mail. *)
Definition email_free (st : Store) (e : string) : Prop :=
  ∀ k u, users st !! k = Some u → User.email u ≠ e.

(** What [upsertUser] does for an id the table does not hold yet, when it
    goes through: it stores and returns a new user, an administrator
    exactly when the e-mail is the operator's. *)
Definition inserts_user (st : Store) (userData : UpsertUser) (now : Timestamp) : Prop :=
  ∃ user,
    upsertUser userData now st
    = (Returned user, set_users (insert (UpsertUser.id userData) user) st)
    ∧ User.id user = UpsertUser.id userData
    ∧ User.email user = UpsertUser.email userData
    ∧ User.gemBalance user = 0
    ∧ (User.isAdmin user = true ↔ UpsertUser.email userData = operator_email).

(** [leads P m Q]: from a store with [P], the computation [m] leaves a
    store with [Q], whether it returns or throws. *)
Definition leads {A} (P : Store → Prop) (m : Db A) (Q : Store → Prop) : Prop :=
  ∀ st, P st → Q (m st).2.

(** A property of the store that a computation keeps. *)
Definition keeps {A} (P : Store → Prop) (m : Db A) : Prop := leads P m P.

(** A property of one part of the store: a table, its rows, the users. *)
Definition on {T} (part : Store → T) (Q : T → Prop) : Store → Prop :=
  λ st, Q (part st).

(** User [uid] is stored, and is in relation [Rel] to what it was. *)
Definition user_stays (uid : string) (Rel : User → Prop) : Store → Prop :=
  on users (λ m, ∃ u', m !! uid = Some u' ∧ Rel u').

(** The sum of the amounts of the transactions of a user. *)
Definition credited (uid : string) (m : gmap Z Transaction) : Z :=
  map_fold (λ _ t acc,
    (if bool_decide (Transaction.userId t = uid) then Transaction.amount t else 0) + acc)
    0 m.




(** No user has two pending withdrawals. *)
Definition single_pending (t : Table WithdrawalRequest) : Prop :=
  ∀ i j w w',
    rows t !! i = Some w → rows t !! j = Some w' →
    WithdrawalRequest.userId w = WithdrawalRequest.userId w' →
    WithdrawalRequest.status w = "pending" → WithdrawalRequest.status w' = "pending" →
    i = j.


(** The foreign keys of the schema: every reference of a row is to a
    stored user or survey. *)
Definition known_user (st : Store) (uid : string) : Prop := is_Some (users st !! uid).

Definition known_survey (st : Store) (sid : Z) : Prop :=
  is_Some (rows (surveys st) !! sid).

Definition response_refers (st : Store) (r : SurveyResponse) : Prop :=
  known_user st (SurveyResponse.userId r) ∧ known_survey st (SurveyResponse.surveyId r).

Definition transaction_refers (st : Store) (t : Transaction) : Prop :=
  known_user st (Transaction.userId t)
  ∧ ∀ sid, Transaction.surveyId t = Some sid → known_survey st sid.

Definition withdrawal_refers (st : Store) (w : WithdrawalRequest) : Prop :=
  known_user st (WithdrawalRequest.userId w)
  ∧ ∀ admin, WithdrawalRequest.processedBy w = Some admin → known_user st admin.

Definition log_refers (st : Store) (l : SecurityLog) : Prop :=
  ∀ uid, SecurityLog.userId l = Some uid → known_user st uid.

Definition foreign_keys (st : Store) : Prop :=
  map_Forall (λ _, response_refers st) (rows (surveyResponses st))
  ∧ map_Forall (λ _, transaction_refers st) (rows (transactions st))
  ∧ map_Forall (λ _, withdrawal_refers st) (rows (withdrawalRequests st))
  ∧ map_Forall (λ _, log_refers st) (rows (securityLogs st)).

(** The constraints of the users table: the primary key is the id, and no
    two users share an e-mail. *)
Definition users_constraints (m : gmap string User) : Prop :=
  (∀ k u, m !! k = Some u → User.id u = k)
  ∧ (∀ k k' u u',
       m !! k = Some u → m !! k' = Some u' → User.email u = User.email u' → k = k').

(** Two stores with the same tables and the same users, each with the same
    balance; the other columns of a user may differ. *)
Definition agree (st st' : Store) : Prop :=
  surveys st = surveys st'
  ∧ surveyResponses st = surveyResponses st'
  ∧ transactions st = transactions st'
  ∧ withdrawalRequests st = withdrawalRequests st'
  ∧ securityLogs st = securityLogs st'
  ∧ ∀ k, option_Forall2 (λ u u', User.gemBalance u = User.gemBalance u')
           (users st !! k) (users st' !! k).

(** A computation that does the same from stores that agree: the same
    outcome, and stores that agree. *)
Definition alike {A} (m : Db A) : Prop :=
  ∀ st st', agree st st' → (m st).1 = (m st').1 ∧ agree (m st).2 (m st').2.

(** From [st] to [st'] one entry has been added to the security log: for
    the user, of the action, with the address and the agent of the
    request. *)
Definition logged (st st' : Store) (uid action : string) (req : Request) : Prop :=
  let i := nextval (securityLogs st) in
  ∃ l,
    rows (securityLogs st) !! i = None
    ∧ rows (securityLogs st') = <[i := l]> (rows (securityLogs st))
    ∧ SecurityLog.userId l = Some uid
    ∧ SecurityLog.action l = action
    ∧ SecurityLog.ipAddress l = Request.ip req
    ∧ SecurityLog.userAgent l = Request.userAgent req.

(** What the security log tells of a request: an entry exactly when the
    request was answered 200. *)
Definition audited {A} (answer : Response A * Store) (st : Store) (uid action : string)
    (req : Request) : Prop :=
  if bool_decide (statusCode answer.1 = 200)
  then logged st answer.2 uid action req
  else rows (securityLogs answer.2) = rows (securityLogs st).

(** A computation that, from a store with the security log of [st], ends
    with the log as it was, or with an answer of 200 and one entry more. *)
Definition ends_logged {A} (st : Store) (uid action : string) (req : Request)
    (body : Db (Response A)) : Prop :=
  ∀ pre,
    securityLogs pre = securityLogs st →
    match body pre with
    | (Returned r, st') => audited (r, st') st uid action req
    | (Threw _, st') => rows (securityLogs st') = rows (securityLogs st)
    end.

(** ** A worked run of the ledger

    Two users, two surveys; alice completes both surveys and asks to
    withdraw 100 gems, which the operator then rejects. *)

Module Demo.
Definition alice : User :=
  User.mk "alice" "alice@example.org" (Some "Alice") None None
    0 false None "active" false 1 1.

Definition root : User :=
  User.mk "root" operator_email None None None 0 true None "active" true 0 0.

Definition coffee : Survey :=
  Survey.mk 1 "Coffee habits" "How do you take it?" 5 50 (JArr []) true 0 2.

Definition commute : Survey :=
  Survey.mk 2 "Commuting" "How do you get to work?" 5 60 (JArr []) true 0 3.

Definition seed : Store :=
  mkStore {[ "alice" := alice; "root" := root ]}
    (mkTable {[ 1 := coffee; 2 := commute ]} 3)
    emptyTable emptyTable emptyTable emptyTable.

(** The request the authorization gate hands over for a stored user. *)
Definition request_of (st : Store) (fallback : User) : Request :=
  Request.mk (default fallback (users st !! User.id fallback))
    (Some "203.0.113.7") (Some "Mozilla/5.0").

Definition answers : Json := JObj [("q1", JStr "black")].

Definition surveyed_once : Store :=
  run (postSurveyComplete (request_of seed alice) 1 (Some answers) 10) seed.

Definition surveyed : Store :=
  run (postSurveyComplete (request_of surveyed_once alice) 2 (Some answers) 20)
    surveyed_once.

Definition hundred : InsertWithdrawalRequest :=
  InsertWithdrawalRequest.mk 100 "ltc1qexampleaddress".

Definition requested : Store :=
  run (postWithdrawals (request_of surveyed alice) (Some hundred) 30) surveyed.

Definition reject : UpdateWithdrawalStatus :=
  UpdateWithdrawalStatus.mk rejected (Some "wallet not verified").

Definition approve : UpdateWithdrawalStatus :=
  UpdateWithdrawalStatus.mk approved None.

Definition turned_down : Store :=
  run (patchAdminWithdrawal (request_of requested root) 1 (Some reject) 40) requested.

Definition paid_out : Store :=
  run (patchAdminWithdrawal (request_of requested root) 1 (Some approve) 40) requested.
End Demo.

(** * Properties *)

(** ** Running database computations *)

Ltac unfold_db :=
  unfold try_catch, parse, mbind, Db_bind, mret, Db_ret, gets, modify, throw,
    references_user, references_survey, references_opt, primary_key in *.



Lemma ahead_decide {R} (t : Table R) :
  bool_decide (map_Forall (λ i _, i < nextval t) (rows t)) = true → ahead t.
Proof. intros H. by apply bool_decide_eq_true in H. Qed.

Lemma elem_of_select {R} (t : Table R) (r : R) :
  r ∈ select t ↔ ∃ i, rows t !! i = Some r.
Proof.
  unfold select. rewrite list_elem_of_fmap. split.
  - intros [[i r'] [-> Hin]]. exists i. by apply elem_of_map_to_list in Hin.
  - intros [i Hrow]. exists (i, r). split; [done|]. by apply elem_of_map_to_list.
Qed.

Lemma some_true {A} (p : A → bool) (l : list A) :
  some p l = true ↔ ∃ x, x ∈ l ∧ p x = true.
Proof.
  unfold some. rewrite existsb_exists. split.
  - intros (x & Hin & Hp). exists x. by rewrite list_elem_of_In.
  - intros (x & Hin & Hp). exists x. by rewrite <- list_elem_of_In.
Qed.

Lemma elem_of_orderBy {R} (ord : relation R) `{!RelDecision ord} (l : list R) (r : R) :
  r ∈ orderBy ord l ↔ r ∈ l.
Proof. unfold orderBy. by rewrite merge_sort_Permutation. Qed.

(** The duplicate check of the completion handler finds a response exactly
    when the table holds one of this user for this survey. *)
Lemma alreadyCompleted_true (st : Store) (userId : string) (surveyId : Z) :
  some (λ r, bool_decide (SurveyResponse.surveyId r = surveyId))
       (orderBy (desc SurveyResponse.completedAt)
          (filter (λ r, SurveyResponse.userId r = userId) (select (surveyResponses st))))
  = true
  ↔ responded st userId surveyId.
Proof.
  rewrite some_true. unfold responded. split.
  - intros (r & Hin & Hp).
    apply elem_of_orderBy, list_elem_of_filter in Hin as [Hu Hin].
    apply elem_of_select in Hin as [i Hrow].
    apply bool_decide_eq_true in Hp. by exists i, r.
  - intros (i & r & Hrow & Hu & Hs). exists r. split.
    + apply elem_of_orderBy, list_elem_of_filter. split; [done|].
      apply elem_of_select. by exists i.
    + by apply bool_decide_eq_true.
Qed.


Lemma getUserPendingWithdrawal_run (st : Store) (userId : string) :
  ∃ found, getUserPendingWithdrawal userId st = (Returned found, st)
           ∧ (is_Some found ↔ has_pending st userId).
Proof.
  unfold getUserPendingWithdrawal, gets, has_pending.
  eexists. split; [reflexivity|].
  rewrite head_is_Some. split.
  - intros Hne.
    destruct (filter _ (select (withdrawalRequests st))) as [|w l] eqn:Hf; [done|].
    assert (Hin : w ∈ w :: l) by left. rewrite <- Hf in Hin.
    apply list_elem_of_filter in Hin as [[Hu Hs] Hin].
    apply elem_of_select in Hin as [i Hrow]. by exists i, w.
  - intros (i & w & Hrow & Hu & Hs) Hnil.
    assert (Hin : w ∈ filter (λ w, WithdrawalRequest.userId w = userId
                                  ∧ WithdrawalRequest.status w = "pending")
                             (select (withdrawalRequests st))).
    { apply list_elem_of_filter. split; [done|]. apply elem_of_select. by exists i. }
    rewrite Hnil in Hin. by apply not_elem_of_nil in Hin.
Qed.

(** ** What a computation keeps *)

Section Keeps.
Context (P : Store → Prop).

Lemma keeps_ret {A} (a : A) : keeps P (mret a).
Proof. by intros st. Qed.

Lemma keeps_throw {A} (e : Thrown) : keeps P (throw (A := A) e).
Proof. by intros st. Qed.

Lemma keeps_gets {A} (f : Store → A) : keeps P (gets f).
Proof. by intros st. Qed.

Lemma keeps_parse {A} (input : option A) : keeps P (parse input).
Proof. destruct input; [apply keeps_ret | apply keeps_throw]. Qed.

Lemma keeps_modify (f : Store → Store) : (∀ st, P st → P (f st)) → keeps P (modify f).
Proof. intros Hf st HP. by apply Hf. Qed.

Lemma leads_bind {A B} (Q : Store → Prop) (m : Db A) (f : A → Db B) :
  leads Q m P → (∀ a, keeps P (f a)) → leads Q (m ≫= f) P.
Proof.
  intros Hm Hf st HQ. unfold mbind, Db_bind.
  specialize (Hm st HQ). destruct (m st) as [[a|e] st1]; cbn in *; [|done].
  by apply Hf.
Qed.


Lemma keeps_bind {A B} (m : Db A) (f : A → Db B) :
  keeps P m → (∀ a, keeps P (f a)) → keeps P (m ≫= f).
Proof. apply leads_bind. Qed.

Lemma leads_try_catch {A} (Q : Store → Prop) (body : Db (Response A))
    (message : string) (st : Store) :
  leads Q body P → Q st → P (run (try_catch body message) st).
Proof.
  intros Hbody HQ. unfold run, try_catch. specialize (Hbody st HQ).
  by destruct (body st) as [[r|e] st1].
Qed.

(** The constraint checks and the reads write nothing. *)
Lemma keeps_references_user c uid : keeps P (references_user c uid).
Proof. intros st HP. unfold references_user. by destruct (users st !! uid). Qed.

Lemma keeps_references_survey c sid : keeps P (references_survey c sid).
Proof.
  intros st HP. unfold references_survey. by destruct (rows (surveys st) !! sid).
Qed.

Lemma keeps_references_opt {K} (check : K → Db unit) (k : option K) :
  (∀ k, keeps P (check k)) → keeps P (references_opt check k).
Proof. intros Hcheck. destruct k; cbn; [done|]. apply keeps_ret. Qed.

Lemma keeps_primary_key {R} c (t : Store → Table R) j : keeps P (primary_key c t j).
Proof. intros st HP. unfold primary_key. by destruct (rows (t st) !! j). Qed.

Lemma keeps_getUser id : keeps P (getUser id).
Proof. apply keeps_gets. Qed.

Lemma keeps_getSurvey id : keeps P (getSurvey id).
Proof. apply keeps_gets. Qed.

Lemma keeps_getUserSurveyResponses userId : keeps P (getUserSurveyResponses userId).
Proof. apply keeps_gets. Qed.

Lemma keeps_getUserPendingWithdrawal userId : keeps P (getUserPendingWithdrawal userId).
Proof. apply keeps_gets. Qed.
End Keeps.

Create HintDb keeps.

#[local] Hint Resolve keeps_ret keeps_throw keeps_gets keeps_parse keeps_references_user
  keeps_references_survey keeps_primary_key keeps_getUser keeps_getSurvey
  keeps_getUserSurveyResponses keeps_getUserPendingWithdrawal : keeps.

(** Splitting a computation along its binds and its case distinctions. *)
Ltac keeps_steps :=
  repeat first
    [ solve [auto with keeps]
    | apply keeps_references_opt; intros ?
    | apply keeps_bind; [|intros ?]
    | match goal with |- keeps _ (let _ := _ in _) => cbv zeta end
    | match goal with |- keeps _ (match ?x with _ => _ end) => destruct x end
    | match goal with |- keeps _ (if ?x then _ else _) => destruct x end ].

(** ** The rows of the withdrawal table that an operation leaves alone *)

Section WithdrawalFrame.
Context (i : Z) (w : WithdrawalRequest).

Lemma keeps_modify_elsewhere (f : Store → Store) :
  (∀ st, withdrawalRequests (f st) = withdrawalRequests st) →
  keeps (withdrawal_is i w) (modify f).
Proof. intros Hf. apply keeps_modify. intros st. unfold withdrawal_is. by rewrite Hf. Qed.

Hint Extern 1 (keeps _ (modify _)) => by apply keeps_modify_elsewhere : keeps.

Lemma frame_updateUserGemBalance uid amount now :
  keeps (withdrawal_is i w) (updateUserGemBalance uid amount now).
Proof. by apply keeps_modify_elsewhere. Qed.

Lemma frame_createTransaction tx now :
  keeps (withdrawal_is i w) (createTransaction tx now).
Proof. unfold createTransaction. keeps_steps. Qed.

Lemma frame_createSecurityLog log now :
  keeps (withdrawal_is i w) (createSecurityLog log now).
Proof. unfold createSecurityLog. keeps_steps. Qed.

Lemma frame_createSurveyResponse uid response gems now :
  keeps (withdrawal_is i w) (createSurveyResponse uid response gems now).
Proof.
  pose proof frame_updateUserGemBalance. unfold createSurveyResponse. keeps_steps.
Qed.

(** A new request takes a key no row has: the rows there are stay. *)
Lemma frame_createWithdrawalRequest uid request now :
  keeps (withdrawal_is i w) (createWithdrawalRequest uid request now).
Proof.
  intros st HP. unfold createWithdrawalRequest. unfold_db. cbn.
  destruct (users st !! uid); [|done]. cbn.
  destruct (rows (withdrawalRequests st) !! nextval (withdrawalRequests st)) eqn:Hkey;
    [done|].
  unfold withdrawal_is in *. cbn. rewrite lookup_insert_ne; [done|]. congruence.
Qed.


Lemma frame_upsertUser userData now : keeps (withdrawal_is i w) (upsertUser userData now).
Proof.
  intros st HP. unfold upsertUser.
  destruct (users st !! _); by destruct (email_taken _ _ _).
Qed.
End WithdrawalFrame.

#[local] Hint Resolve frame_updateUserGemBalance frame_createTransaction
  frame_createSecurityLog frame_createSurveyResponse frame_createWithdrawalRequest
  frame_upsertUser : keeps.



(** ** The withdrawal life cycle *)






(** ** Rewards and withdrawal requests *)





(** ** Rejections that leave the store alone *)

(** C5: the withdrawal-request handler answers 400 and writes nothing when
    the user already has a pending withdrawal, when the amount exceeds the
    user's gem balance, or when the amount is below 100. *)
Theorem postWithdrawals_rejects (st : Store) (req : Request)
    (validatedData : InsertWithdrawalRequest) (now : Timestamp) :
  has_pending st (User.id (Request.user req))
  ∨ User.gemBalance (Request.user req) < InsertWithdrawalRequest.amount validatedData
  ∨ InsertWithdrawalRequest.amount validatedData < 100 →
  ∃ message,
    postWithdrawals req (Some validatedData) now st = (status_json 400 message, st).
Proof.
  intros Hcase. unfold postWithdrawals.
  destruct (getUserPendingWithdrawal_run st (User.id (Request.user req)))
    as (found & Hget & Hfound).
  unfold_db. rewrite Hget.
  destruct found as [w|]; [by eexists|].
  destruct Hcase as [Hp | [Hlow | Hmin]].
  - apply Hfound in Hp. by destruct Hp.
  - apply Z.ltb_lt in Hlow. rewrite Hlow. by eexists.
  - destruct (_ <? _); [by eexists|].
    apply Z.ltb_lt in Hmin. rewrite Hmin. by eexists.
Qed.

Lemma postWithdrawals_rejects_witness :
  ∃ message,
    postWithdrawals (Demo.request_of Demo.surveyed_once Demo.alice)
      (Some (InsertWithdrawalRequest.mk 50 "ltc1qexampleaddress")) 15 Demo.surveyed_once
    = (status_json 400 message, Demo.surveyed_once).
Proof.
  apply postWithdrawals_rejects. right. right. vm_compute. reflexivity.
Defined.

(** C6: completing a survey a second time is answered 400 and writes
    nothing: no response, no transaction, no change of the balance or of
    the participant count. *)
Theorem postSurveyComplete_twice (st : Store) (req : Request) (surveyId : Z)
    (responses : Json) (now : Timestamp) (survey : Survey) :
  rows (surveys st) !! surveyId = Some survey →
  responded st (User.id (Request.user req)) surveyId →
  postSurveyComplete req surveyId (Some responses) now st
  = (status_json 400 "Survey already completed", st).
Proof.
  intros Hsurvey Hdone.
  unfold postSurveyComplete, getSurvey, getUserSurveyResponses. unfold_db. cbn.
  rewrite Hsurvey. apply alreadyCompleted_true in Hdone.
  by rewrite Hdone.
Qed.

Lemma postSurveyComplete_twice_witness :
  postSurveyComplete (Demo.request_of Demo.surveyed Demo.alice) 1 (Some Demo.answers) 25
    Demo.surveyed
  = (status_json 400 "Survey already completed", Demo.surveyed).
Proof.
  apply (postSurveyComplete_twice Demo.surveyed _ 1 Demo.answers 25
           (with_participantCount 1 Demo.coffee)).
  - vm_compute. reflexivity.
  - exists 1, (SurveyResponse.mk 1 "alice" 1 Demo.answers 10 50).
    vm_compute. repeat split; reflexivity.
Defined.

(** C7: for a withdrawal id that matches no row the adjudication handler
    leaves the store as it was, and answers 500, not 404: the update
    returns no row, reading [withdrawal.userId] throws, and the catch-all
    answers. *)
Theorem patchAdminWithdrawal_unknown_id (st : Store) (req : Request) (withdrawalId : Z)
    (body : option UpdateWithdrawalStatus) (now : Timestamp) :
  rows (withdrawalRequests st) !! withdrawalId = None →
  patchAdminWithdrawal req withdrawalId body now st
  = (status_json 500 "Failed to update withdrawal", st).
Proof.
  intros Hnone.
  unfold patchAdminWithdrawal, updateWithdrawalStatus. unfold_db.
  destruct body as [validatedData|]; cbn; [|done].
  by rewrite Hnone.
Qed.

Lemma patchAdminWithdrawal_unknown_id_witness :
  patchAdminWithdrawal (Demo.request_of Demo.seed Demo.root) 7 (Some Demo.approve) 5
    Demo.seed
  = (status_json 500 "Failed to update withdrawal", Demo.seed).
Proof. apply patchAdminWithdrawal_unknown_id. vm_compute. reflexivity. Defined.

(** The survey routes answer 404 for a survey that is not there. *)
Example postSurveyComplete_unknown_survey :
  postSurveyComplete (Demo.request_of Demo.seed Demo.alice) 7 (Some Demo.answers) 5
    Demo.seed
  = (status_json 404 "Survey not found", Demo.seed).
Proof. vm_compute. reflexivity. Qed.

(** ** The statistics of the operator *)

Lemma filter_snd {K R} (P : R → Prop) `{!∀ r, Decision (P r)} (l : list (K * R)) :
  filter P l.*2 = (filter (λ kr, P kr.2) l).*2.
Proof.
  induction l as [|[k r] l IH]; [done|].
  rewrite fmap_cons, !filter_cons. cbn. destruct (decide (P r)); cbn; by rewrite IH.
Qed.

(** [select ... where] lists the rows of the filtered table. *)
Lemma select_where {R} (P : R → Prop) `{!∀ r, Decision (P r)} (t : Table R) :
  filter P (select t) ≡ₚ (map_to_list (rows_where P t)).*2.
Proof.
  unfold select, rows_where. rewrite filter_snd, map_filter_alt.
  rewrite map_to_list_to_map; [done|].
  eapply sublist_NoDup; [apply (NoDup_fst_map_to_list (rows t))|].
  apply fmap_sublist, sublist_filter.
Qed.

Lemma length_select_where {R} (P : R → Prop) `{!∀ r, Decision (P r)} (t : Table R) :
  length (filter P (select t)) = size (rows_where P t).
Proof. by rewrite select_where, length_fmap, length_map_to_list. Qed.




(** The conversion factor is the binary64 number nearest to 5/100. *)
Lemma lit_0_05_nearest :
  Number.lit_0_05 = SFdiv Number.prec Number.emax (Number.of_Z 5) (Number.of_Z 100).
Proof. vm_compute. reflexivity. Qed.


(** One approved withdrawal of 100 gems is a payout of 5.00. *)
Example getAdminStats_paid_out :
  getAdminStats Demo.paid_out = (json (UserStats.mk 2 0 "5.00"), Demo.paid_out).
Proof. vm_compute. reflexivity. Qed.

Example getAdminStats_requested :
  getAdminStats Demo.requested = (json (UserStats.mk 2 1 "0.00"), Demo.requested).
Proof. vm_compute. reflexivity. Qed.

(** ** Signing in *)

Lemma email_taken_false (m : gmap string User) (self e : string) :
  (∀ k u, m !! k = Some u → k ≠ self → User.email u ≠ e) →
  email_taken m self e = false.
Proof.
  intros Hfree. unfold email_taken. apply bool_decide_eq_false.
  intros (k & u & Hk & Hne & He). by eapply Hfree.
Qed.

(** C9, as the code has it: for an id that matches no stored user and an
    e-mail that no stored user holds, [upsertUser] stores and returns a new
    user, an administrator exactly when the e-mail is the operator's. *)
Theorem upsertUser_inserts (st : Store) (userData : UpsertUser) (now : Timestamp) :
  users st !! UpsertUser.id userData = None →
  email_free st (UpsertUser.email userData) →
  inserts_user st userData now.
Proof.
  intros Hnew Hfree. unfold inserts_user, upsertUser. rewrite Hnew.
  rewrite email_taken_false by (intros k u Hk _; by eapply Hfree).
  eexists. split; [reflexivity|]. cbn. repeat split; try done.
  - apply bool_decide_eq_true.
  - apply bool_decide_eq_true.
Qed.

Lemma upsertUser_inserts_witness :
  inserts_user Demo.seed
    (UpsertUser.mk "bob" "bob@example.org" (Some (Some "Bob")) None None) 50.
Proof.
  apply upsertUser_inserts.
  - vm_compute. reflexivity.
  - assert (Hall : map_Forall (λ _ u, User.email u ≠ "bob@example.org")
                               (users Demo.seed))
      by (apply (bool_decide_unpack _); vm_compute; exact I).
    intros k u Hk. by apply Hall in Hk.
Defined.

(** C9, as stated, fails: the id matches no stored user, the e-mail is the
    one alice holds, and the insert is refused by the unique e-mail; no
    user is stored and none is returned. *)
Lemma upsertUser_email_taken :
  users Demo.seed !! "alice-again" = None
  ∧ upsertUser (UpsertUser.mk "alice-again" "alice@example.org" None None None) 50
      Demo.seed
    = (Threw (UniqueViolation "users_email_unique"), Demo.seed)
  ∧ ¬ inserts_user Demo.seed
        (UpsertUser.mk "alice-again" "alice@example.org" None None None) 50.
Proof.
  split; [vm_compute; reflexivity|]. split; [vm_compute; reflexivity|].
  intros (user & Hrun & _). vm_compute in Hrun. discriminate Hrun.
Qed.

(** C10: for an id that matches a stored user, [upsertUser] leaves that
    user's gem balance, administrator flag, status, verification fields
    and creation time as they were, and leaves every other user and every
    other table untouched. *)
Theorem upsertUser_existing_frame (st : Store) (userData : UpsertUser) (now : Timestamp)
    (old : User) :
  users st !! UpsertUser.id userData = Some old →
  let st' := (upsertUser userData now st).2 in
  (∃ user,
      users st' !! UpsertUser.id userData = Some user
      ∧ User.gemBalance user = User.gemBalance old
      ∧ User.isAdmin user = User.isAdmin old
      ∧ User.status user = User.status old
      ∧ User.isVerified user = User.isVerified old
      ∧ User.verificationCode user = User.verificationCode old
      ∧ User.createdAt user = User.createdAt old)
  ∧ (∀ k, k ≠ UpsertUser.id userData → users st' !! k = users st !! k)
  ∧ surveys st' = surveys st
  ∧ surveyResponses st' = surveyResponses st
  ∧ transactions st' = transactions st
  ∧ withdrawalRequests st' = withdrawalRequests st
  ∧ securityLogs st' = securityLogs st.
Proof.
  intros Hold. unfold upsertUser. rewrite Hold.
  destruct (email_taken _ _ _); cbn.
  - split; [by exists old|]. by repeat split.
  - rewrite lookup_insert_eq. split; [by eexists|].
    repeat split; try done. intros k Hk. by rewrite lookup_insert_ne.
Qed.

Lemma upsertUser_existing_frame_witness :
  let st' :=
    (upsertUser (UpsertUser.mk "alice" "alice@new.example" None (Some None) None) 99
       Demo.requested).2 in
  (∃ user,
      users st' !! "alice" = Some user
      ∧ User.gemBalance user = 10
      ∧ User.isAdmin user = false
      ∧ User.status user = "active"
      ∧ User.isVerified user = false
      ∧ User.verificationCode user = None
      ∧ User.createdAt user = 1)
  ∧ (∀ k, k ≠ "alice" → users st' !! k = users Demo.requested !! k)
  ∧ surveys st' = surveys Demo.requested
  ∧ surveyResponses st' = surveyResponses Demo.requested
  ∧ transactions st' = transactions Demo.requested
  ∧ withdrawalRequests st' = withdrawalRequests Demo.requested
  ∧ securityLogs st' = securityLogs Demo.requested.
Proof.
  apply (upsertUser_existing_frame Demo.requested
           (UpsertUser.mk "alice" "alice@new.example" None (Some None) None) 99
           (User.mk "alice" "alice@example.org" (Some "Alice") None None
              10 false None "active" false 1 30)).
  vm_compute. reflexivity.
Defined.

(** A returning user keeps the balance, and the e-mail and the absent
    first name are handled as the update clause says. *)
Example upsertUser_returning_alice :
  (upsertUser (UpsertUser.mk "alice" "alice@new.example" None (Some None) None) 99
     Demo.requested).1
  = Returned (User.mk "alice" "alice@new.example" (Some "Alice") None None
                10 false None "active" false 1 99).
Proof. vm_compute. reflexivity. Qed.

(** ** The sequences stay ahead *)

Lemma ahead_advance {R} (t : Table R) : ahead t → ahead (advance t).
Proof.
  intros Hahead i r Hrow. apply Hahead in Hrow. unfold advance. cbn in *. lia.
Qed.

(** A row stored under the key just drawn. *)
Lemma ahead_insert_drawn {R} (t : Table R) (r : R) :
  ahead t → ahead (store_row (nextval t) r (advance t)).
Proof.
  intros Hahead. unfold ahead, store_row, advance. cbn.
  apply map_Forall_insert_2; [lia|].
  intros i r' Hrow. apply Hahead in Hrow. cbn in *. lia.
Qed.

(** A row stored over a row that is there. *)
Lemma ahead_overwrite {R} (t : Table R) (i : Z) (r : R) :
  is_Some (rows t !! i) → ahead t → ahead (store_row i r t).
Proof.
  intros [old Hold] Hahead. unfold ahead, store_row. cbn.
  apply map_Forall_insert_2; [by apply Hahead in Hold|done].
Qed.

Lemma ahead_alter_rows {R} (f : R → R) (i : Z) (t : Table R) :
  ahead t → ahead (alter_rows f i t).
Proof.
  intros Hahead j r Hrow. unfold alter_rows in *. cbn in *.
  apply lookup_alter_Some in Hrow as [(-> & r' & Hrow & _) | [_ Hrow]];
    by apply Hahead in Hrow.
Qed.

Lemma stay_ahead_users (f : gmap string User → gmap string User) :
  keeps sequences_ahead (modify (set_users f)).
Proof. by apply keeps_modify. Qed.

Lemma stay_ahead_updateUserGemBalance uid amount now :
  keeps sequences_ahead (updateUserGemBalance uid amount now).
Proof. apply stay_ahead_users. Qed.

Lemma stay_ahead_createTransaction tx now :
  keeps sequences_ahead (createTransaction tx now).
Proof.
  intros st (Hs & Hr & Ht & Hw & Hl). unfold createTransaction. unfold_db. cbn.
  assert (sequences_ahead (set_transactions advance st)) as Hadv
    by (repeat split; try done; by apply ahead_advance).
  destruct (users st !! _); [|done]. cbn.
  destruct (NewTransaction.surveyId tx) as [sid|]; cbn;
    [destruct (rows (surveys st) !! sid); [|done]; cbn|];
    (destruct (rows (transactions st) !! nextval (transactions st)); [done|]; cbn;
     repeat split; try done; by apply ahead_insert_drawn).
Qed.

Lemma stay_ahead_createSecurityLog log now :
  keeps sequences_ahead (createSecurityLog log now).
Proof.
  intros st (Hs & Hr & Ht & Hw & Hl). unfold createSecurityLog. unfold_db. cbn.
  assert (sequences_ahead (set_securityLogs advance st)) as Hadv
    by (repeat split; try done; by apply ahead_advance).
  destruct (NewSecurityLog.userId log) as [uid|]; cbn;
    [destruct (users st !! uid); [|done]; cbn|];
    (destruct (rows (securityLogs st) !! nextval (securityLogs st)); [done|]; cbn;
     repeat split; try done; by apply ahead_insert_drawn).
Qed.

Lemma stay_ahead_createWithdrawalRequest uid request now :
  keeps sequences_ahead (createWithdrawalRequest uid request now).
Proof.
  intros st (Hs & Hr & Ht & Hw & Hl). unfold createWithdrawalRequest. unfold_db. cbn.
  assert (sequences_ahead (set_withdrawalRequests advance st)) as Hadv
    by (repeat split; try done; by apply ahead_advance).
  destruct (users st !! _); [|done]. cbn.
  destruct (rows (withdrawalRequests st) !! nextval (withdrawalRequests st)); [done|].
  cbn. repeat split; try done. by apply ahead_insert_drawn.
Qed.

Lemma stay_ahead_createSurveyResponse uid response gems now :
  keeps sequences_ahead (createSurveyResponse uid response gems now).
Proof.
  intros st (Hs & Hr & Ht & Hw & Hl). unfold createSurveyResponse, getUser, getSurvey,
    updateUserGemBalance. unfold_db. cbn.
  assert (sequences_ahead (set_surveyResponses advance st)) as Hadv
    by (repeat split; try done; by apply ahead_advance).
  destruct (users st !! uid) as [user|] eqn:Huser; [|done]. cbn.
  destruct (rows (surveys st) !! _) as [survey|] eqn:Hsurvey; [|done]. cbn.
  destruct (rows (surveyResponses st) !! nextval (surveyResponses st)); [done|]. cbn.
  rewrite Huser. cbn. rewrite Hsurvey. cbn.
  repeat split; try done; [by apply ahead_alter_rows | by apply ahead_insert_drawn].
Qed.

Lemma stay_ahead_updateWithdrawalStatus i status admin now :
  keeps sequences_ahead (updateWithdrawalStatus i status admin now).
Proof.
  intros st (Hs & Hr & Ht & Hw & Hl). unfold updateWithdrawalStatus. unfold_db. cbn.
  destruct (rows (withdrawalRequests st) !! i) eqn:Hrow; [|done]. cbn.
  destruct (users st !! admin); [|done]. cbn.
  repeat split; try done. apply ahead_overwrite; [by eexists|done].
Qed.

Lemma stay_ahead_upsertUser userData now :
  keeps sequences_ahead (upsertUser userData now).
Proof.
  intros st Hst. unfold upsertUser.
  destruct (users st !! _); by destruct (email_taken _ _ _).
Qed.

#[local] Hint Resolve stay_ahead_users stay_ahead_updateUserGemBalance
  stay_ahead_createTransaction stay_ahead_createSecurityLog
  stay_ahead_createWithdrawalRequest stay_ahead_createSurveyResponse
  stay_ahead_updateWithdrawalStatus stay_ahead_upsertUser : keeps.

(** X1: every operation keeps the sequences ahead of the keys of their
    tables, as they are in the empty database: the hypothesis the success
    theorems make is an invariant of the system. *)
Theorem sequences_stay_ahead (op : Operation) (now : Timestamp) (st : Store) :
  sequences_ahead st → sequences_ahead (perform op now st).
Proof.
  intros Hst.
  destruct op as [req surveyId responses | req body
                 | req offerId provider reward title | req amount description
                 | req withdrawalId body | req userId body
                 | userData | userId]; cbn [perform];
    try (apply (leads_try_catch sequences_ahead sequences_ahead); [|done]).
  - keeps_steps.
  - keeps_steps.
  - keeps_steps.
  - keeps_steps.
  - keeps_steps.
  - unfold updateUserStatus. keeps_steps.
  - by apply stay_ahead_upsertUser.
  - unfold verifyUser. by apply stay_ahead_users.
Qed.

Lemma sequences_ahead_empty : sequences_ahead emptyStore.
Proof. repeat split; apply map_Forall_empty. Qed.

Lemma sequences_stay_ahead_witness : sequences_ahead Demo.requested.
Proof.
  apply (sequences_stay_ahead
           (RequestWithdrawal (Demo.request_of Demo.surveyed Demo.alice)
              (Some Demo.hundred)) 30 Demo.surveyed).
  repeat split; apply ahead_decide; vm_compute; reflexivity.
Defined.

(** ** The offerwall *)



(** ** The run of the specification

    A user with no gems completes a survey worth 50 and has 50 gems and
    one [survey_reward] transaction of 50; a withdrawal of 50 is refused as
    below the minimum; after a second survey worth 60 the balance is 110; a
    withdrawal of 100 goes through, leaves 10 gems and one pending request
    of 100; the operator rejects it, the balance is 110 again and the
    request is rejected. *)
Example ledger_scenario :
  User.gemBalance <$> users Demo.seed !! "alice" = Some 0
  ∧ User.gemBalance <$> users Demo.surveyed_once !! "alice" = Some 50
  ∧ rows (transactions Demo.surveyed_once)
    = {[ 1 := Transaction.mk 1 "alice" "survey_reward" 50 "Survey completed: Coffee habits"
                (Some 1) None None None 10 ]}
  ∧ postWithdrawals (Demo.request_of Demo.surveyed_once Demo.alice)
      (Some (InsertWithdrawalRequest.mk 50 "ltc1qexampleaddress")) 15 Demo.surveyed_once
    = (status_json 400 "Minimum withdrawal amount is 100 gems", Demo.surveyed_once)
  ∧ User.gemBalance <$> users Demo.surveyed !! "alice" = Some 110
  ∧ postWithdrawals (Demo.request_of Demo.surveyed Demo.alice) (Some Demo.hundred) 30
      Demo.surveyed
    = (json (WithdrawalRequest.mk 1 "alice" 100 "ltc1qexampleaddress" "pending"
               None 30 None None), Demo.requested)
  ∧ User.gemBalance <$> users Demo.requested !! "alice" = Some 10
  ∧ rows (withdrawalRequests Demo.requested)
    = {[ 1 := WithdrawalRequest.mk 1 "alice" 100 "ltc1qexampleaddress" "pending"
                None 30 None None ]}
  ∧ User.gemBalance <$> users Demo.turned_down !! "alice" = Some 110
  ∧ WithdrawalRequest.status <$> rows (withdrawalRequests Demo.turned_down) !! 1
    = Some "rejected".
Proof. vm_compute. repeat split; reflexivity. Qed.

(** ** Operations as compositions of storage calls *)

Section Composition.
Context (P : Store → Prop) (now : Timestamp).

Lemma CompleteSurvey_keeps req surveyId responses st :
  (∀ uid response gems, keeps P (createSurveyResponse uid response gems now)) →
  (∀ tx, keeps P (createTransaction tx now)) →
  (∀ log, keeps P (createSecurityLog log now)) →
  P st → P (perform (CompleteSurvey req surveyId responses) now st).
Proof.
  intros Hresp Htx Hlog HP. apply (leads_try_catch P P); [|done]. keeps_steps.
Qed.

Lemma RequestWithdrawal_keeps req body st :
  (∀ uid request, keeps P (createWithdrawalRequest uid request now)) →
  (∀ tx, keeps P (createTransaction tx now)) →
  (∀ uid amount, keeps P (updateUserGemBalance uid amount now)) →
  (∀ log, keeps P (createSecurityLog log now)) →
  P st → P (perform (RequestWithdrawal req body) now st).
Proof.
  intros Hwd Htx Hbal Hlog HP. apply (leads_try_catch P P); [|done]. keeps_steps.
Qed.

Lemma CompleteOffer_keeps req offerId provider reward title st :
  (∀ tx, keeps P (createTransaction tx now)) →
  (∀ uid amount, keeps P (updateUserGemBalance uid amount now)) →
  (∀ log, keeps P (createSecurityLog log now)) →
  P st → P (perform (CompleteOffer req offerId provider reward title) now st).
Proof.
  intros Htx Hbal Hlog HP. apply (leads_try_catch P P); [|done]. keeps_steps.
Qed.

Lemma ReportEarnings_keeps req amount description st :
  (∀ tx, keeps P (createTransaction tx now)) →
  (∀ uid amount, keeps P (updateUserGemBalance uid amount now)) →
  (∀ log, keeps P (createSecurityLog log now)) →
  P st → P (perform (ReportEarnings req amount description) now st).
Proof.
  intros Htx Hbal Hlog HP. apply (leads_try_catch P P); [|done]. keeps_steps.
Qed.

Lemma Adjudicate_keeps req withdrawalId body st :
  (∀ i status admin, keeps P (updateWithdrawalStatus i status admin now)) →
  (∀ tx, keeps P (createTransaction tx now)) →
  (∀ uid amount, keeps P (updateUserGemBalance uid amount now)) →
  (∀ log, keeps P (createSecurityLog log now)) →
  P st → P (perform (Adjudicate req withdrawalId body) now st).
Proof.
  intros Hwd Htx Hbal Hlog HP. apply (leads_try_catch P P); [|done]. keeps_steps.
Qed.

Lemma SetUserStatus_keeps req userId body st :
  (∀ uid statusUpdate, keeps P (updateUserStatus uid statusUpdate now)) →
  (∀ log, keeps P (createSecurityLog log now)) →
  P st → P (perform (SetUserStatus req userId body) now st).
Proof.
  intros Hstatus Hlog HP. apply (leads_try_catch P P); [|done]. keeps_steps.
Qed.

(** A property that every storage write keeps is kept by every operation. *)
Lemma perform_keeps (op : Operation) (st : Store) :
  (∀ uid response gems, keeps P (createSurveyResponse uid response gems now)) →
  (∀ tx, keeps P (createTransaction tx now)) →
  (∀ log, keeps P (createSecurityLog log now)) →
  (∀ uid request, keeps P (createWithdrawalRequest uid request now)) →
  (∀ i status admin, keeps P (updateWithdrawalStatus i status admin now)) →
  (∀ uid amount, keeps P (updateUserGemBalance uid amount now)) →
  (∀ uid statusUpdate, keeps P (updateUserStatus uid statusUpdate now)) →
  (∀ userData, keeps P (upsertUser userData now)) →
  (∀ uid, keeps P (verifyUser uid now)) →
  P st → P (perform op now st).
Proof.
  intros Hresp Htx Hlog Hcw Huw Hbal Hstatus Hupsert Hverify HP.
  destruct op.
  - by apply CompleteSurvey_keeps.
  - by apply RequestWithdrawal_keeps.
  - by apply CompleteOffer_keeps.
  - by apply ReportEarnings_keeps.
  - by apply Adjudicate_keeps.
  - by apply SetUserStatus_keeps.
  - by apply Hupsert.
  - by apply Hverify.
Qed.
End Composition.

(** ** Storage calls and the parts of the store they leave alone *)

Section Untouched.
Context {T : Type} (part : Store → T) (Q : T → Prop) (now : Timestamp).

Lemma on_modify (f : Store → Store) :
  (∀ st, part (f st) = part st) → keeps (on part Q) (modify f).
Proof. intros Hf. apply keeps_modify. intros st. unfold on. by rewrite Hf. Qed.

Lemma on_createTransaction tx :
  (∀ f st, part (set_transactions f st) = part st) →
  keeps (on part Q) (createTransaction tx now).
Proof.
  intros Hother. unfold createTransaction. keeps_steps;
    apply on_modify; intros ?; by rewrite Hother.
Qed.

Lemma on_createSecurityLog log :
  (∀ f st, part (set_securityLogs f st) = part st) →
  keeps (on part Q) (createSecurityLog log now).
Proof.
  intros Hother. unfold createSecurityLog. keeps_steps;
    apply on_modify; intros ?; by rewrite Hother.
Qed.

Lemma on_createWithdrawalRequest uid request :
  (∀ f st, part (set_withdrawalRequests f st) = part st) →
  keeps (on part Q) (createWithdrawalRequest uid request now).
Proof.
  intros Hother. unfold createWithdrawalRequest. keeps_steps;
    apply on_modify; intros ?; by rewrite Hother.
Qed.

Lemma on_updateWithdrawalStatus i status admin :
  (∀ f st, part (set_withdrawalRequests f st) = part st) →
  keeps (on part Q) (updateWithdrawalStatus i status admin now).
Proof.
  intros Hother. unfold updateWithdrawalStatus. keeps_steps;
    apply on_modify; intros ?; by rewrite Hother.
Qed.

Lemma on_createSurveyResponse uid response gems :
  (∀ f st, part (set_surveyResponses f st) = part st) →
  (∀ f st, part (set_users f st) = part st) →
  (∀ f st, part (set_surveys f st) = part st) →
  keeps (on part Q) (createSurveyResponse uid response gems now).
Proof.
  intros H1 H2 H3. unfold createSurveyResponse, updateUserGemBalance. keeps_steps;
    apply on_modify; intros ?; by rewrite ?H1, ?H2, ?H3.
Qed.

Lemma on_updateUserGemBalance uid amount :
  (∀ f st, part (set_users f st) = part st) →
  keeps (on part Q) (updateUserGemBalance uid amount now).
Proof. intros Hother. apply on_modify. intros ?. by rewrite Hother. Qed.

Lemma on_updateUserStatus uid statusUpdate :
  (∀ f st, part (set_users f st) = part st) →
  keeps (on part Q) (updateUserStatus uid statusUpdate now).
Proof.
  intros Hother. unfold updateUserStatus. keeps_steps.
  apply on_modify. intros ?. by rewrite Hother.
Qed.

Lemma on_verifyUser uid :
  (∀ f st, part (set_users f st) = part st) →
  keeps (on part Q) (verifyUser uid now).
Proof. intros Hother. apply on_modify. intros ?. by rewrite Hother. Qed.

Lemma on_upsertUser userData :
  (∀ f st, part (set_users f st) = part st) →
  keeps (on part Q) (upsertUser userData now).
Proof.
  intros Hother st HP. unfold upsertUser, on in *.
  destruct (users st !! _); destruct (email_taken _ _ _); cbn; by rewrite ?Hother.
Qed.
End Untouched.

(** A part of the store that a computation keeps whatever is said of it is
    left as it was. *)
Lemma untouched {A T} (part : Store → T) (m : Db A) (st : Store) :
  (∀ Q, keeps (on part Q) m) → part (m st).2 = part st.
Proof. intros Hm. symmetry. by apply (Hm (eq (part st)) st). Qed.

(** ** Tables that only grow *)

(** An insert takes a key no row has: the rows there are stay. *)
Lemma transaction_stays_createTransaction i t tx now :
  keeps (on (λ st, rows (transactions st)) (λ m, m !! i = Some t))
        (createTransaction tx now).
Proof.
  intros st HP. unfold createTransaction, on in *. unfold_db. cbn.
  destruct (users st !! _); [|done]. cbn.
  destruct (NewTransaction.surveyId tx) as [sid|]; cbn;
    [destruct (rows (surveys st) !! sid); [|done]; cbn|];
    (destruct (rows (transactions st) !! nextval (transactions st)) eqn:Hkey;
       [done|]; cbn; rewrite lookup_insert_ne; [done|congruence]).
Qed.

Lemma log_stays_createSecurityLog i l log now :
  keeps (on (λ st, rows (securityLogs st)) (λ m, m !! i = Some l))
        (createSecurityLog log now).
Proof.
  intros st HP. unfold createSecurityLog, on in *. unfold_db. cbn.
  destruct (NewSecurityLog.userId log) as [uid|]; cbn;
    [destruct (users st !! uid); [|done]; cbn|];
    (destruct (rows (securityLogs st) !! nextval (securityLogs st)) eqn:Hkey;
       [done|]; cbn; rewrite lookup_insert_ne; [done|congruence]).
Qed.

Lemma response_stays_createSurveyResponse i r uid response gems now :
  keeps (on (λ st, rows (surveyResponses st)) (λ m, m !! i = Some r))
        (createSurveyResponse uid response gems now).
Proof.
  intros st HP. unfold createSurveyResponse, getUser, getSurvey, updateUserGemBalance,
    on in *. unfold_db. cbn.
  destruct (users st !! uid) eqn:Hu; [|done]. cbn.
  destruct (rows (surveys st) !! _) eqn:Hs; [|done]. cbn.
  destruct (rows (surveyResponses st) !! nextval (surveyResponses st)) eqn:Hkey;
    [done|]. cbn. rewrite Hu. cbn. rewrite Hs. cbn.
  rewrite lookup_insert_ne; [done|congruence].
Qed.

Lemma perform_keeps_transaction (op : Operation) (now : Timestamp) (st : Store) i t :
  rows (transactions st) !! i = Some t →
  rows (transactions (perform op now st)) !! i = Some t.
Proof.
  apply (perform_keeps (on (λ st, rows (transactions st)) (λ m, m !! i = Some t)));
    intros;
    first [ apply transaction_stays_createTransaction
          | by apply on_createSurveyResponse | by apply on_createSecurityLog
          | by apply on_createWithdrawalRequest | by apply on_updateWithdrawalStatus
          | by apply on_updateUserGemBalance | by apply on_updateUserStatus
          | by apply on_upsertUser | by apply on_verifyUser ].
Qed.

Lemma perform_keeps_log (op : Operation) (now : Timestamp) (st : Store) i l :
  rows (securityLogs st) !! i = Some l →
  rows (securityLogs (perform op now st)) !! i = Some l.
Proof.
  apply (perform_keeps (on (λ st, rows (securityLogs st)) (λ m, m !! i = Some l)));
    intros;
    first [ apply log_stays_createSecurityLog
          | by apply on_createSurveyResponse | by apply on_createTransaction
          | by apply on_createWithdrawalRequest | by apply on_updateWithdrawalStatus
          | by apply on_updateUserGemBalance | by apply on_updateUserStatus
          | by apply on_upsertUser | by apply on_verifyUser ].
Qed.

Lemma perform_keeps_response (op : Operation) (now : Timestamp) (st : Store) i r :
  rows (surveyResponses st) !! i = Some r →
  rows (surveyResponses (perform op now st)) !! i = Some r.
Proof.
  apply (perform_keeps (on (λ st, rows (surveyResponses st)) (λ m, m !! i = Some r)));
    intros;
    first [ apply response_stays_createSurveyResponse
          | by apply on_createTransaction | by apply on_createSecurityLog
          | by apply on_createWithdrawalRequest | by apply on_updateWithdrawalStatus
          | by apply on_updateUserGemBalance | by apply on_updateUserStatus
          | by apply on_upsertUser | by apply on_verifyUser ].
Qed.

(** X2: the transactions, the security logs and the survey responses are
    append-only: whatever an operation does, every row these tables hold
    stays as it is, under its key. *)
Theorem ledger_and_logs_append_only (op : Operation) (now : Timestamp) (st : Store) :
  (∀ i t, rows (transactions st) !! i = Some t →
          rows (transactions (perform op now st)) !! i = Some t)
  ∧ (∀ i l, rows (securityLogs st) !! i = Some l →
            rows (securityLogs (perform op now st)) !! i = Some l)
  ∧ (∀ i r, rows (surveyResponses st) !! i = Some r →
            rows (surveyResponses (perform op now st)) !! i = Some r).
Proof.
  split; [|split]; intros i row.
  - apply perform_keeps_transaction.
  - apply perform_keeps_log.
  - apply perform_keeps_response.
Qed.

(** ** Participant counts and responses *)


Lemma bind_ret {A B} (a : A) (f : A → Db B) (st : Store) : (mret a ≫= f) st = f a st.
Proof. reflexivity. Qed.

Lemma bind_gets {A B} (g : Store → A) (f : A → Db B) (st : Store) :
  (gets g ≫= f) st = f (g st) st.
Proof. reflexivity. Qed.

(** What [createSurveyResponse] does to the surveys and to the responses:
    nothing when it throws; when it returns, it has stored the response
    under the key it drew and counted one more participant. *)
Lemma createSurveyResponse_counts (uid : string) (response : InsertSurveyResponse)
    (gems : Z) (now : Timestamp) (st : Store) :
  let sid := InsertSurveyResponse.surveyId response in
  let i := nextval (surveyResponses st) in
  let st' := (createSurveyResponse uid response gems now st).2 in
  match (createSurveyResponse uid response gems now st).1 with
  | Threw _ =>
      surveys st' = surveys st ∧ rows (surveyResponses st') = rows (surveyResponses st)
  | Returned r =>
      r = SurveyResponse.mk i uid sid (InsertSurveyResponse.responses response) now gems
      ∧ rows (surveyResponses st) !! i = None
      ∧ rows (surveyResponses st') = <[i := r]> (rows (surveyResponses st))
      ∧ ∃ s, rows (surveys st) !! sid = Some s
             ∧ surveys st'
               = alter_rows (with_participantCount (Survey.participantCount s + 1)) sid
                   (surveys st)
  end.
Proof.
  unfold createSurveyResponse, getUser, getSurvey, updateUserGemBalance. unfold_db. cbn.
  destruct (users st !! uid) eqn:Hu; [|done]. cbn.
  destruct (rows (surveys st) !! _) eqn:Hs; [|done]. cbn.
  destruct (rows (surveyResponses st) !! nextval (surveyResponses st)) eqn:Hkey;
    [done|]. cbn. rewrite Hu. cbn. rewrite Hs. cbn.
  repeat split; try done. by eexists.
Qed.


(** ** The columns of a user and the operations that write them *)

Section UserColumns.
Context (uid : string) (Rel : User → Prop) (now : Timestamp).

Lemma user_stays_alter (f : User → User) (k : string) :
  (∀ u', Rel u' → Rel (f u')) →
  keeps (user_stays uid Rel) (modify (set_users (alter f k))).
Proof.
  intros Hf. apply keeps_modify. intros st (u' & Hu & HR).
  unfold user_stays, on. cbn. destruct (decide (k = uid)) as [->|Hk].
  - exists (f u'). rewrite lookup_alter_eq, Hu. auto.
  - exists u'. by rewrite lookup_alter_ne.
Qed.

Lemma user_stays_updateUserGemBalance k amount :
  (∀ balance u', Rel u' → Rel (with_gemBalance balance now u')) →
  keeps (user_stays uid Rel) (updateUserGemBalance k amount now).
Proof. intros Hbal. apply user_stays_alter, Hbal. Qed.

Lemma user_stays_createSurveyResponse k response gems :
  (∀ balance u', Rel u' → Rel (with_gemBalance balance now u')) →
  keeps (user_stays uid Rel) (createSurveyResponse k response gems now).
Proof.
  intros Hbal. pose proof (user_stays_updateUserGemBalance k).
  unfold createSurveyResponse. keeps_steps; by apply on_modify.
Qed.

Lemma user_stays_updateUserStatus k statusUpdate :
  (∀ s u', Rel u' → Rel (with_status (AccountStatus_str s) now u')) →
  keeps (user_stays uid Rel) (updateUserStatus k statusUpdate now).
Proof.
  intros Hstatus. unfold updateUserStatus. keeps_steps. apply user_stays_alter, Hstatus.
Qed.

End UserColumns.

(** X5: no operation removes a user or changes a user's id, administrator
    flag or creation time, and each of the other columns has its writers:
    the status is written by the status route only, the verification
    columns by [verifyUser] only, the identity columns by the sign-in
    upsert only, and every other operation leaves a user as it was or with
    a new balance (and [updatedAt]). *)
Theorem user_columns_and_their_writers (op : Operation) (now : Timestamp) (st : Store)
    (u : User) :
  let uid := User.id u in
  users st !! uid = Some u →
  ∃ u',
    users (perform op now st) !! uid = Some u'
    ∧ User.id u' = User.id u
    ∧ User.isAdmin u' = User.isAdmin u
    ∧ User.createdAt u' = User.createdAt u
    ∧ match op with
      | SetUserStatus _ _ _ =>
          u' = u ∨ ∃ s, u' = with_status (AccountStatus_str s) now u
      | Verify _ => u' = u ∨ u' = verified now u
      | SignIn _ =>
          User.gemBalance u' = User.gemBalance u
          ∧ User.status u' = User.status u
          ∧ User.isVerified u' = User.isVerified u
          ∧ User.verificationCode u' = User.verificationCode u
      | _ => u' = u ∨ ∃ balance, u' = with_gemBalance balance now u
      end.
Proof.
  intros uid Hu.
  set (balance_only := λ u', u' = u ∨ ∃ balance, u' = with_gemBalance balance now u).
  assert (Hclosed : ∀ balance u', balance_only u' →
                                  balance_only (with_gemBalance balance now u')).
  { intros balance u' [->|[b ->]]; right; by exists balance. }
  assert (Hstart : user_stays uid balance_only st) by (exists u; split; [done|by left]).
  assert (Hfixed : ∀ u', balance_only u' →
            User.id u' = User.id u ∧ User.isAdmin u' = User.isAdmin u
            ∧ User.createdAt u' = User.createdAt u).
  { by intros u' [->|[b ->]]. }
  assert (Hbal : ∀ k amount,
            keeps (user_stays uid balance_only) (updateUserGemBalance k amount now)).
  { intros. by apply user_stays_updateUserGemBalance. }
  assert (Htx : ∀ Rel tx, keeps (user_stays uid Rel) (createTransaction tx now)).
  { intros. by apply on_createTransaction. }
  assert (Hlog : ∀ Rel log, keeps (user_stays uid Rel) (createSecurityLog log now)).
  { intros. by apply on_createSecurityLog. }
  destruct op as [req surveyId responses | req body | req offerId provider reward title
                 | req amount description | req withdrawalId body | req userId body
                 | userData | userId].
  - destruct (CompleteSurvey_keeps (user_stays uid balance_only) now req surveyId
                responses st) as (u' & Hu' & HR); try done.
    { intros. by apply user_stays_createSurveyResponse. }
    exists u'. destruct (Hfixed u' HR) as (? & ? & ?). done.
  - destruct (RequestWithdrawal_keeps (user_stays uid balance_only) now req body st)
      as (u' & Hu' & HR); try done.
    { intros. by apply on_createWithdrawalRequest. }
    exists u'. destruct (Hfixed u' HR) as (? & ? & ?). done.
  - destruct (CompleteOffer_keeps (user_stays uid balance_only) now req offerId provider
                reward title st) as (u' & Hu' & HR); try done.
    exists u'. destruct (Hfixed u' HR) as (? & ? & ?). done.
  - destruct (ReportEarnings_keeps (user_stays uid balance_only) now req amount
                description st) as (u' & Hu' & HR); try done.
    exists u'. destruct (Hfixed u' HR) as (? & ? & ?). done.
  - destruct (Adjudicate_keeps (user_stays uid balance_only) now req withdrawalId body st)
      as (u' & Hu' & HR); try done.
    { intros. by apply on_updateWithdrawalStatus. }
    exists u'. destruct (Hfixed u' HR) as (? & ? & ?). done.
  - set (status_only := λ u', u' = u ∨ ∃ s, u' = with_status (AccountStatus_str s) now u).
    destruct (SetUserStatus_keeps (user_stays uid status_only) now req userId body st)
      as (u' & Hu' & HR); try done.
    { intros. apply user_stays_updateUserStatus.
      intros s u' [->|[s' ->]]; right; by exists s. }
    { exists u. split; [done|by left]. }
    exists u'. split; [done|].
    destruct HR as [->|[s ->]]; repeat split; [by left | right; by exists s].
  - cbn. unfold upsertUser.
    destruct (users st !! UpsertUser.id userData) as [old|] eqn:Hold;
      destruct (email_taken _ _ _); cbn; try by exists u.
    + destruct (decide (UpsertUser.id userData = uid)) as [Hid|Hid].
      * rewrite Hid, lookup_insert_eq. eexists. split; [done|]. cbn.
        rewrite Hid, Hu in Hold. injection Hold as <-.
        done.
      * rewrite lookup_insert_ne; [|done]. by exists u.
    + rewrite lookup_insert_ne; [by exists u|]. congruence.
  - cbn. destruct (decide (userId = uid)) as [->|Hid].
    + rewrite lookup_alter_eq, Hu. cbn. exists (verified now u). repeat split. by right.
    + rewrite lookup_alter_ne; [|done]. exists u. repeat split; try done. by left.
Qed.

Lemma user_columns_and_their_writers_witness :
  ∃ u',
    users (perform (Verify "alice") 5 Demo.seed) !! "alice" = Some u'
    ∧ User.id u' = "alice"
    ∧ User.isAdmin u' = false
    ∧ User.createdAt u' = 1
    ∧ (u' = Demo.alice ∨ u' = verified 5 Demo.alice).
Proof.
  apply (user_columns_and_their_writers (Verify "alice") 5 Demo.seed Demo.alice).
  vm_compute. reflexivity.
Defined.

(** ** Balances and the ledger *)









Section InStep.
Context (st : Store) (now : Timestamp).
Context (Hfresh : rows (transactions st) !! nextval (transactions st) = None).









End InStep.



(** With a session that carries an old balance the balance parts from the
    ledger: alice holds 50 gems; an offer of 5 completed on the session she
    opened before she earned them stores 5 gems, not 55. *)
Example stale_session_overwrites_the_balance :
  let stale := Demo.request_of Demo.seed Demo.alice in
  let st' := run (postOfferwallComplete stale None None 5 "Watch the clip" 12)
               Demo.surveyed_once in
  User.gemBalance <$> users Demo.surveyed_once !! "alice" = Some 50
  ∧ User.gemBalance <$> users st' !! "alice" = Some 5
  ∧ credited "alice" (rows (transactions st')) = 55.
Proof. vm_compute. repeat split; reflexivity. Qed.

(** ** One pending withdrawal, one response *)









(** ** The status route *)



(** ** Reported earnings *)



(** ** What the status code tells *)

(** X11: an answer in the 400s means that nothing was written.  The
    completion route answers 200, 400, 404 or 500 and the withdrawal route
    200, 400 or 500, and with a 400 or a 404 they return the store they
    were given; the offerwall routes and the admin routes that write answer
    200 or 500 only, whatever the request holds. *)
Theorem client_errors_write_nothing (st : Store) (req : Request) (now : Timestamp) :
  (∀ surveyId responses,
     let answer := postSurveyComplete req surveyId responses now st in
     let code := statusCode answer.1 in
     (code = 200 ∨ code = 400 ∨ code = 404 ∨ code = 500)
     ∧ (code = 400 ∨ code = 404 → answer.2 = st))
  ∧ (∀ body,
       let answer := postWithdrawals req body now st in
       let code := statusCode answer.1 in
       (code = 200 ∨ code = 400 ∨ code = 500) ∧ (code = 400 → answer.2 = st))
  ∧ (∀ offerId provider reward title,
       let code := statusCode (postOfferwallComplete req offerId provider reward title
                                 now st).1 in
       code = 200 ∨ code = 500)
  ∧ (∀ amount description,
       let code := statusCode (postOfferwallEarnings req amount description now st).1 in
       code = 200 ∨ code = 500)
  ∧ (∀ withdrawalId body,
       let code := statusCode (patchAdminWithdrawal req withdrawalId body now st).1 in
       code = 200 ∨ code = 500)
  ∧ (∀ userId body,
       let code := statusCode (patchAdminUserStatus req userId body now st).1 in
       code = 200 ∨ code = 500).
Proof.
  repeat split.
  - unfold postSurveyComplete. cbv zeta.
    destruct responses as [responses|]; [|cbn; auto].
    unfold try_catch. cbn [fmap option_fmap option_map parse]. rewrite bind_ret.
    unfold getSurvey, getUserSurveyResponses. rewrite bind_gets.
    destruct (rows (surveys st) !! surveyId) as [survey|]; [|cbn; auto].
    rewrite bind_gets. destruct (some _ _); [cbn; auto|].
    unfold_db. destruct (createSurveyResponse _ _ _ _ st) as [[r|e] st1]; [|cbn; auto].
    destruct (createTransaction _ _ st1) as [[t|e] st2]; [|cbn; auto].
    destruct (createSecurityLog _ _ st2) as [[l|e] st3]; cbn; auto.
  - unfold postSurveyComplete. cbv zeta.
    destruct responses as [responses|]; [|cbn; intros [|]; done].
    unfold try_catch. cbn [fmap option_fmap option_map parse]. rewrite bind_ret.
    unfold getSurvey, getUserSurveyResponses. rewrite bind_gets.
    destruct (rows (surveys st) !! surveyId) as [survey|]; [|done].
    rewrite bind_gets. destruct (some _ _); [done|].
    unfold_db. destruct (createSurveyResponse _ _ _ _ st) as [[r|e] st1];
      [|cbn; intros [|]; done].
    destruct (createTransaction _ _ st1) as [[t|e] st2]; [|cbn; intros [|]; done].
    destruct (createSecurityLog _ _ st2) as [[l|e] st3]; cbn; intros [|]; done.
  - unfold postWithdrawals. cbv zeta.
    destruct body as [validatedData|]; [|cbn; auto].
    unfold try_catch. cbn [parse]. rewrite bind_ret.
    unfold getUserPendingWithdrawal. rewrite bind_gets.
    destruct (head _); [cbn; auto|].
    destruct (_ <? _); [cbn; auto|]. destruct (_ <? _); [cbn; auto|].
    unfold_db. destruct (createWithdrawalRequest _ _ _ st) as [[w|e] st1]; [|cbn; auto].
    destruct (createTransaction _ _ st1) as [[t|e] st2]; [|cbn; auto].
    unfold updateUserGemBalance, modify.
    destruct (createSecurityLog _ _ _) as [[l|e] st3]; cbn; auto.
  - unfold postWithdrawals. cbv zeta.
    destruct body as [validatedData|]; [|done].
    unfold try_catch. cbn [parse]. rewrite bind_ret.
    unfold getUserPendingWithdrawal. rewrite bind_gets.
    destruct (head _); [done|].
    destruct (_ <? _); [done|]. destruct (_ <? _); [done|].
    unfold_db. destruct (createWithdrawalRequest _ _ _ st) as [[w|e] st1]; [|done].
    destruct (createTransaction _ _ st1) as [[t|e] st2]; [|done].
    unfold updateUserGemBalance, modify.
    destruct (createSecurityLog _ _ _) as [[l|e] st3]; done.
  - intros offerId provider reward title. unfold postOfferwallComplete. cbv zeta.
    unfold try_catch, updateUserGemBalance. unfold_db.
    destruct (createTransaction _ _ _) as [[t|e] st2]; [|cbn; auto].
    destruct (createSecurityLog _ _ _) as [[l|e] st3]; cbn; auto.
  - intros amount description. unfold postOfferwallEarnings. cbv zeta.
    unfold try_catch, updateUserGemBalance. unfold_db.
    destruct (createTransaction _ _ _) as [[t|e] st2]; [|cbn; auto].
    destruct (createSecurityLog _ _ _) as [[l|e] st3]; cbn; auto.
  - intros withdrawalId body. unfold patchAdminWithdrawal. cbv zeta.
    destruct body as [validatedData|]; [|cbn; auto].
    unfold try_catch. cbn [parse]. rewrite bind_ret.
    unfold_db. destruct (updateWithdrawalStatus _ _ _ _ st) as [[[w|]|e] st1];
      [|cbn; auto..].
    destruct (createTransaction _ _ st1) as [[t|e] st2]; [|cbn; auto].
    unfold getUser, updateUserGemBalance. unfold_db.
    destruct (UpdateWithdrawalStatus.status validatedData);
      [|destruct (users st2 !! _)];
      (destruct (createSecurityLog _ _ _) as [[l|e] st3]; cbn; auto).
  - intros userId body. unfold patchAdminUserStatus. cbv zeta.
    destruct body as [validatedData|]; [|cbn; auto].
    unfold try_catch. cbn [parse]. rewrite bind_ret.
    unfold_db. destruct (updateUserStatus _ _ _ st) as [[u|e] st1]; [|cbn; auto].
    destruct (createSecurityLog _ _ _) as [[l|e] st3]; cbn; auto.
Qed.

(** ** Runs of operations *)

Lemma perform_all_keeps (P : Store → Prop) (steps : list (Operation * Timestamp))
    (st : Store) :
  (∀ step st, step ∈ steps → P st → P (perform step.1 step.2 st)) →
  P st → P (perform_all steps st).
Proof.
  revert st. induction steps as [|step steps IH]; intros st Hstep HP; [done|].
  cbn. apply IH.
  - intros step' st' Hin. apply Hstep. by right.
  - apply Hstep; [by left|done].
Qed.

Lemma perform_keeps_survey (op : Operation) (now : Timestamp) (st : Store) (sid : Z) :
  is_Some (rows (surveys st) !! sid) →
  is_Some (rows (surveys (perform op now st)) !! sid).
Proof.
  apply (perform_keeps (on surveys (λ t, is_Some (rows t !! sid)))); intros;
    first [ by apply on_createTransaction | by apply on_createSecurityLog
          | by apply on_createWithdrawalRequest | by apply on_updateWithdrawalStatus
          | by apply on_updateUserGemBalance | by apply on_updateUserStatus
          | by apply on_upsertUser | by apply on_verifyUser | idtac ].
  unfold createSurveyResponse, updateUserGemBalance. keeps_steps;
    try (by apply on_modify).
  apply keeps_modify. intros st'. unfold on. cbn. by rewrite lookup_alter_is_Some.
Qed.

Lemma perform_keeps_responded (op : Operation) (now : Timestamp) (st : Store)
    (uid : string) (sid : Z) :
  responded st uid sid → responded (perform op now st) uid sid.
Proof.
  intros (i & r & Hrow & Hr). exists i, r. split; [|done].
  by apply perform_keeps_response.
Qed.

(** A completion that is answered 200 has stored a response of the session
    user to the survey. *)
Lemma postSurveyComplete_responded (st : Store) (req : Request) (surveyId : Z)
    (responses : option Json) (now : Timestamp) :
  statusCode (postSurveyComplete req surveyId responses now st).1 = 200 →
  is_Some (rows (surveys st) !! surveyId)
  ∧ responded (run (postSurveyComplete req surveyId responses now) st)
      (User.id (Request.user req)) surveyId.
Proof.
  unfold run. destruct (postSurveyComplete _ _ _ _ st) as [answer st'] eqn:Hrun.
  cbn [fst snd]. intros Hcode. revert Hrun.
  unfold postSurveyComplete. cbv zeta.
  destruct responses as [responses|]; [|by intros [= <- <-]].
  unfold try_catch. cbn [fmap option_fmap option_map parse]. rewrite bind_ret.
  unfold getSurvey, getUserSurveyResponses. rewrite bind_gets.
  destruct (rows (surveys st) !! surveyId) as [survey|]; [|by intros [= <- <-]].
  rewrite bind_gets. destruct (some _ _); [by intros [= <- <-]|].
  pose proof (createSurveyResponse_counts (User.id (Request.user req))
                (InsertSurveyResponse.mk surveyId responses) (Survey.reward survey) now st)
    as Hcounts.
  unfold mbind at 1, Db_bind at 1.
  destruct (createSurveyResponse _ _ _ _ st) as [[r|e] st1]; [|by intros [= <- <-]].
  cbn [fst snd] in Hcounts. destruct Hcounts as (-> & Hkey & Hrows & _).
  match goal with
  | |- context [(?m ≫= ?f) st1] =>
      pose proof (untouched (λ st, rows (surveyResponses st)) (m ≫= f) st1) as Hrest;
      destruct ((m ≫= f) st1) as [[answer'|e] st2]
  end; [|by intros [= <- <-]].
  intros [= <- <-]. split; [by eexists|].
  eexists _, _. split.
  { cbn in Hrest. rewrite Hrest, Hrows; [apply lookup_insert_eq|].
    intros Q.
    pose proof (λ tx, on_createTransaction (λ st, rows (surveyResponses st)) Q now tx
                        (λ _ _, eq_refl)).
    pose proof (λ log, on_createSecurityLog (λ st, rows (surveyResponses st)) Q now log
                         (λ _ _, eq_refl)).
    keeps_steps. }
  split; reflexivity.
Qed.

(** X12: a survey is rewarded once: after a completion that was answered
    200, every later completion of that survey by that user is answered
    400 and writes nothing, whatever operations have run in between. *)
Theorem survey_rewarded_once (st : Store) (req : Request) (surveyId : Z)
    (responses : option Json) (now : Timestamp) (steps : list (Operation * Timestamp))
    (req' : Request) (responses' : Json) (now' : Timestamp) :
  statusCode (postSurveyComplete req surveyId responses now st).1 = 200 →
  User.id (Request.user req') = User.id (Request.user req) →
  let st' := perform_all steps (run (postSurveyComplete req surveyId responses now) st) in
  postSurveyComplete req' surveyId (Some responses') now' st'
  = (status_json 400 "Survey already completed", st').
Proof.
  intros Hcode Hsame st'.
  destruct (postSurveyComplete_responded st req surveyId responses now Hcode)
    as [Hsurvey Hdone].
  apply (perform_keeps_survey (CompleteSurvey req surveyId responses) now) in Hsurvey.
  cbn [perform] in Hsurvey.
  assert (is_Some (rows (surveys st') !! surveyId)
          ∧ responded st' (User.id (Request.user req')) surveyId) as [[s Hs] Hr].
  { rewrite Hsame. subst st'.
    apply (perform_all_keeps
             (λ st, is_Some (rows (surveys st) !! surveyId)
                    ∧ responded st (User.id (Request.user req)) surveyId)); [|done].
    intros step st0 _ [? ?].
    split; [by apply perform_keeps_survey | by apply perform_keeps_responded]. }
  unfold postSurveyComplete, getSurvey, getUserSurveyResponses. unfold_db. cbn.
  rewrite Hs. apply alreadyCompleted_true in Hr. by rewrite Hr.
Qed.

Lemma survey_rewarded_once_witness :
  let st' :=
    perform_all
      [(CompleteSurvey (Demo.request_of Demo.surveyed_once Demo.alice) 2
          (Some Demo.answers), 20);
       (RequestWithdrawal (Demo.request_of Demo.surveyed Demo.alice) (Some Demo.hundred),
        30)]
      Demo.surveyed_once in
  postSurveyComplete (Demo.request_of Demo.requested Demo.alice) 1 (Some Demo.answers) 35
    st'
  = (status_json 400 "Survey already completed", st').
Proof.
  apply (survey_rewarded_once Demo.seed (Demo.request_of Demo.seed Demo.alice) 1
           (Some Demo.answers) 10).
  - vm_compute. reflexivity.
  - vm_compute. reflexivity.
Defined.

(** ** A pending withdrawal *)

Lemma perform_keeps_pending (op : Operation) (now : Timestamp) (st : Store)
    (uid : string) :
  is_adjudication op = false →
  has_pending st uid → has_pending (perform op now st) uid.
Proof.
  intros Hop (i & w & Hrow & Hw). exists i, w. split; [|done].
  change (withdrawal_is i w (perform op now st)). change (withdrawal_is i w st) in Hrow.
  assert (Htx : ∀ tx, keeps (withdrawal_is i w) (createTransaction tx now))
    by (intros; apply frame_createTransaction).
  assert (Hlog : ∀ log, keeps (withdrawal_is i w) (createSecurityLog log now))
    by (intros; apply frame_createSecurityLog).
  assert (Hbal : ∀ k amount, keeps (withdrawal_is i w) (updateUserGemBalance k amount now))
    by (intros; apply frame_updateUserGemBalance).
  destruct op; try discriminate Hop.
  - apply CompleteSurvey_keeps; try done. intros. apply frame_createSurveyResponse.
  - apply RequestWithdrawal_keeps; try done. intros. apply frame_createWithdrawalRequest.
  - by apply CompleteOffer_keeps.
  - by apply ReportEarnings_keeps.
  - apply SetUserStatus_keeps; try done. intros.
    by apply (on_updateUserStatus (λ st, rows (withdrawalRequests st))
                (λ m, m !! i = Some w)).
  - by apply frame_upsertUser.
  - by apply (on_verifyUser (λ st, rows (withdrawalRequests st)) (λ m, m !! i = Some w)).
Qed.

(** X13: a pending withdrawal blocks further requests until it is
    adjudicated: while no adjudication runs, whatever else does, every
    request of a user with a pending withdrawal is answered 400 and writes
    nothing. *)
Theorem pending_withdrawal_blocks_requests (st : Store)
    (steps : list (Operation * Timestamp)) (req : Request)
    (validatedData : InsertWithdrawalRequest) (now : Timestamp) :
  has_pending st (User.id (Request.user req)) →
  Forall (λ step, is_adjudication step.1 = false) steps →
  let st' := perform_all steps st in
  postWithdrawals req (Some validatedData) now st'
  = (status_json 400 "You already have a pending withdrawal request", st').
Proof.
  intros Hpending Hsteps st'.
  assert (has_pending st' (User.id (Request.user req))) as Hstill.
  { subst st'. apply (perform_all_keeps (λ st, has_pending st _)); [|done].
    intros step st0 Hin. rewrite Forall_forall in Hsteps.
    by apply perform_keeps_pending, Hsteps. }
  unfold postWithdrawals.
  destruct (getUserPendingWithdrawal_run st' (User.id (Request.user req)))
    as (found & Hget & Hfound).
  unfold_db. rewrite Hget. apply Hfound in Hstill. by destruct Hstill as [w ->].
Qed.

Lemma pending_withdrawal_blocks_requests_witness :
  let st' :=
    perform_all
      [(CompleteOffer (Demo.request_of Demo.requested Demo.alice) None None 500
          "Install the game", 35)]
      Demo.requested in
  postWithdrawals (Demo.request_of st' Demo.alice) (Some Demo.hundred) 36 st'
  = (status_json 400 "You already have a pending withdrawal request", st').
Proof.
  apply (pending_withdrawal_blocks_requests Demo.requested).
  - exists 1, (withdrawal_row 1 "alice" Demo.hundred 30).
    vm_compute. repeat split; reflexivity.
  - repeat constructor.
Defined.

(** ** A request and its rejection *)





(** ** The pending withdrawal of a user *)

(** X15: the pending route answers with the pending withdrawal of the
    session user when there is one, and with no row otherwise, and writes
    nothing; where no user has two pending withdrawals, the row it answers
    with is the user's pending withdrawal. *)
Theorem getWithdrawalsPending_finds (st : Store) (req : Request) :
  let userId := User.id (Request.user req) in
  single_pending (withdrawalRequests st) →
  ∃ found,
    getWithdrawalsPending req st = (json found, st)
    ∧ (found = None ↔ ¬ has_pending st userId)
    ∧ ∀ i w,
        rows (withdrawalRequests st) !! i = Some w →
        WithdrawalRequest.userId w = userId →
        WithdrawalRequest.status w = "pending" →
        found = Some w.
Proof.
  intros userId Hsingle. unfold getWithdrawalsPending.
  destruct (getUserPendingWithdrawal_run st userId) as (found & Hget & Hfound).
  exists found. unfold_db. fold userId. rewrite Hget. split; [done|]. split.
  - rewrite <- Hfound, <- not_eq_None_Some. split; [by intros -> ?|].
    intros Hnot. by destruct found; [destruct Hnot|].
  - intros i w Hrow Hu Hs.
    unfold getUserPendingWithdrawal, gets in Hget. injection Hget as Hhead.
    destruct found as [w'|].
    + apply head_Some_elem_of in Hhead.
      apply list_elem_of_filter in Hhead as [[Hu' Hs'] Hin].
      apply elem_of_select in Hin as [j Hrow'].
      assert (i = j) as <- by (apply (Hsingle i j w w'); congruence).
      congruence.
    + assert (is_Some (@None WithdrawalRequest)) as [? ?]; [|done].
      apply Hfound. by exists i, w.
Qed.

Lemma single_pending_singleton (t : Table WithdrawalRequest) (k : Z)
    (w : WithdrawalRequest) :
  rows t = {[ k := w ]} → single_pending t.
Proof.
  intros Hrows i j w1 w2 Hi Hj _ _ _. rewrite Hrows in Hi, Hj.
  apply lookup_singleton_Some in Hi as [<- _], Hj as [<- _]. reflexivity.
Qed.

Lemma getWithdrawalsPending_finds_witness :
  ∃ found,
    getWithdrawalsPending (Demo.request_of Demo.requested Demo.alice) Demo.requested
    = (json found, Demo.requested)
    ∧ found = Some (withdrawal_row 1 "alice" Demo.hundred 30).
Proof.
  destruct (getWithdrawalsPending_finds Demo.requested
              (Demo.request_of Demo.requested Demo.alice))
    as (found & Hrun & _ & Hfound).
  - apply (single_pending_singleton _ 1 (withdrawal_row 1 "alice" Demo.hundred 30)).
    vm_compute. reflexivity.
  - exists found. split; [exact Hrun|].
    apply (Hfound 1); vm_compute; reflexivity.
Defined.

(** ** Signing in again *)

Lemma email_taken_insert_self (m : gmap string User) (self e : string) (u : User) :
  email_taken (<[self := u]> m) self e = email_taken m self e.
Proof.
  unfold email_taken. apply bool_decide_ext. unfold map_Exists. split.
  - intros (k & u' & Hk & Hne & He). exists k, u'.
    by rewrite lookup_insert_ne in Hk.
  - intros (k & u' & Hk & Hne & He). exists k, u'.
    by rewrite lookup_insert_ne.
Qed.

(** X16: signing in is idempotent: an upsert that went through, run again
    with the same identity fields, goes through and stores and returns the
    same user, but for [updatedAt]. *)
Theorem upsertUser_again (st st1 : Store) (userData : UpsertUser) (now now' : Timestamp)
    (u : User) :
  upsertUser userData now st = (Returned u, st1) →
  let u' :=
    User.mk (User.id u) (User.email u) (User.firstName u) (User.lastName u)
      (User.profileImageUrl u) (User.gemBalance u) (User.isVerified u)
      (User.verificationCode u) (User.status u) (User.isAdmin u) (User.createdAt u) now' in
  upsertUser userData now' st1
  = (Returned u', set_users (insert (UpsertUser.id userData) u') st1).
Proof.
  unfold upsertUser.
  destruct (users st !! UpsertUser.id userData) as [old|] eqn:Hold;
    destruct (email_taken _ _ _) eqn:Hfree; try done; cbn; intros [= <- <-]; cbn.
  all: rewrite lookup_insert_eq, email_taken_insert_self, Hfree; cbn.
  all: destruct userData as [id email [[f|]|] [[l|]|] [[p|]|]]; reflexivity.
Qed.

Lemma upsertUser_again_witness :
  let carol := UpsertUser.mk "carol" "carol@example.org" (Some (Some "Carol")) None None in
  upsertUser carol 4 (upsertUser carol 3 Demo.seed).2
  = (Returned (User.mk "carol" "carol@example.org" (Some "Carol") None None 0 false None
                 "active" false 3 4),
     set_users (insert "carol"
                  (User.mk "carol" "carol@example.org" (Some "Carol") None None 0 false
                     None "active" false 3 4))
       (upsertUser carol 3 Demo.seed).2).
Proof.
  apply (upsertUser_again Demo.seed _
           (UpsertUser.mk "carol" "carol@example.org" (Some (Some "Carol")) None None) 3 4
           (User.mk "carol" "carol@example.org" (Some "Carol") None None 0 false None
              "active" false 3 3)).
  vm_compute. reflexivity.
Defined.

(** ** The constraints of the schema *)

(** A store that knows every user and survey the old one knew, and whose
    new rows refer to what it knows, has its foreign keys. *)
Lemma foreign_keys_extend (st st' : Store) :
  foreign_keys st →
  (∀ uid, known_user st uid → known_user st' uid) →
  (∀ sid, known_survey st sid → known_survey st' sid) →
  (∀ i r, rows (surveyResponses st') !! i = Some r →
          rows (surveyResponses st) !! i = Some r ∨ response_refers st' r) →
  (∀ i t, rows (transactions st') !! i = Some t →
          rows (transactions st) !! i = Some t ∨ transaction_refers st' t) →
  (∀ i w, rows (withdrawalRequests st') !! i = Some w →
          rows (withdrawalRequests st) !! i = Some w ∨ withdrawal_refers st' w) →
  (∀ i l, rows (securityLogs st') !! i = Some l →
          rows (securityLogs st) !! i = Some l ∨ log_refers st' l) →
  foreign_keys st'.
Proof.
  intros (Hr & Ht & Hw & Hl) Hu Hs Hr' Ht' Hw' Hl'. split; [|split; [|split]].
  - intros i r Hrow. destruct (Hr' i r Hrow) as [Hold|]; [|done].
    destruct (Hr i r Hold). split; auto.
  - intros i t Hrow. destruct (Ht' i t Hrow) as [Hold|]; [|done].
    destruct (Ht i t Hold). split; eauto.
  - intros i w Hrow. destruct (Hw' i w Hrow) as [Hold|]; [|done].
    destruct (Hw i w Hold). split; eauto.
  - intros i l Hrow. destruct (Hl' i l Hrow) as [Hold|]; [|done].
    intros uid Huid. eapply Hu, Hl; eauto.
Qed.

Ltac extend_foreign_keys :=
  eapply foreign_keys_extend; [eassumption|..]; unfold known_user, known_survey; cbn;
    try (intros ? ? ?; by left);
    try (intros ?; rewrite ?lookup_alter_is_Some; by auto).

Ltac new_row Hrow :=
  apply lookup_insert_Some in Hrow as [[<- <-]|[_ Hrow]]; [right|by left].

Lemma foreign_keys_createTransaction tx now :
  keeps foreign_keys (createTransaction tx now).
Proof.
  intros st HP. unfold createTransaction. unfold_db. cbn.
  assert (foreign_keys (set_transactions advance st)) by extend_foreign_keys.
  destruct (users st !! NewTransaction.userId tx) eqn:Hu; [|done]. cbn.
  destruct (NewTransaction.surveyId tx) as [sid|] eqn:Hsid; cbn;
    [destruct (rows (surveys st) !! sid) eqn:Hs; [|done]; cbn|];
    (destruct (rows (transactions st) !! nextval (transactions st)); [done|]; cbn;
     extend_foreign_keys; intros ? ? Hrow; new_row Hrow;
     split; cbn; [by eexists|]; rewrite Hsid; intros ? [= <-]; by eexists).
Qed.

Lemma foreign_keys_createSecurityLog log now :
  keeps foreign_keys (createSecurityLog log now).
Proof.
  intros st HP. unfold createSecurityLog. unfold_db. cbn.
  assert (foreign_keys (set_securityLogs advance st)) by extend_foreign_keys.
  destruct (NewSecurityLog.userId log) as [uid|] eqn:Huid; cbn;
    [destruct (users st !! uid) eqn:Hu; [|done]; cbn|];
    (destruct (rows (securityLogs st) !! nextval (securityLogs st)); [done|]; cbn;
     extend_foreign_keys; intros ? ? Hrow; new_row Hrow;
     intros ?; cbn; rewrite Huid; intros [= <-]; by eexists).
Qed.

Lemma foreign_keys_createWithdrawalRequest uid request now :
  keeps foreign_keys (createWithdrawalRequest uid request now).
Proof.
  intros st HP. unfold createWithdrawalRequest. unfold_db. cbn.
  assert (foreign_keys (set_withdrawalRequests advance st)) by extend_foreign_keys.
  destruct (users st !! uid) eqn:Hu; [|done]. cbn.
  destruct (rows (withdrawalRequests st) !! nextval (withdrawalRequests st)); [done|].
  cbn. extend_foreign_keys. intros ? ? Hrow. new_row Hrow.
  split; cbn; [by eexists|done].
Qed.

Lemma foreign_keys_updateWithdrawalStatus i status admin now :
  keeps foreign_keys (updateWithdrawalStatus i status admin now).
Proof.
  intros st HP. unfold updateWithdrawalStatus. unfold_db. cbn.
  destruct (rows (withdrawalRequests st) !! i) as [old|] eqn:Hold; [|done]. cbn.
  destruct (users st !! admin) eqn:Hadmin; [|done]. cbn.
  extend_foreign_keys. intros ? ? Hrow. new_row Hrow.
  destruct HP as (_ & _ & Hw & _). destruct (Hw i old Hold) as [Hu _].
  split; cbn; [done|]. intros ? [= <-]. by eexists.
Qed.

Lemma foreign_keys_users_alter (f : User → User) (k : string) :
  keeps foreign_keys (modify (set_users (alter f k))).
Proof. apply keeps_modify. intros st HP. extend_foreign_keys. Qed.

Lemma foreign_keys_createSurveyResponse uid response gems now :
  keeps foreign_keys (createSurveyResponse uid response gems now).
Proof.
  intros st HP. unfold createSurveyResponse, getUser, getSurvey, updateUserGemBalance.
  unfold_db. cbn.
  assert (foreign_keys (set_surveyResponses advance st)) by extend_foreign_keys.
  destruct (users st !! uid) eqn:Hu; [|done]. cbn.
  destruct (rows (surveys st) !! _) eqn:Hs; [|done]. cbn.
  destruct (rows (surveyResponses st) !! nextval (surveyResponses st)); [done|]. cbn.
  rewrite Hu. cbn. rewrite Hs. cbn.
  extend_foreign_keys. intros ? ? Hrow. new_row Hrow.
  split; unfold known_user, known_survey; cbn; rewrite lookup_alter_is_Some;
    by eexists.
Qed.

Lemma foreign_keys_upsertUser userData now :
  keeps foreign_keys (upsertUser userData now).
Proof.
  intros st HP. unfold upsertUser.
  destruct (users st !! _); destruct (email_taken _ _ _); cbn; try done;
    (extend_foreign_keys; intros uid Huid; rewrite lookup_insert_is_Some;
     destruct (decide (UpsertUser.id userData = uid)); auto).
Qed.

(** X17: the foreign keys of the schema hold in every store the operations
    reach: no operation removes a user or a survey, and each row an
    operation stores refers to users and surveys that are there. *)
Theorem foreign_keys_hold (op : Operation) (now : Timestamp) (st : Store) :
  foreign_keys st → foreign_keys (perform op now st).
Proof.
  apply perform_keeps; intros.
  - apply foreign_keys_createSurveyResponse.
  - apply foreign_keys_createTransaction.
  - apply foreign_keys_createSecurityLog.
  - apply foreign_keys_createWithdrawalRequest.
  - apply foreign_keys_updateWithdrawalStatus.
  - apply foreign_keys_users_alter.
  - unfold updateUserStatus. apply keeps_bind; [apply foreign_keys_users_alter|].
    intros. apply keeps_gets.
  - apply foreign_keys_upsertUser.
  - apply foreign_keys_users_alter.
Qed.

Lemma foreign_keys_hold_witness : foreign_keys Demo.surveyed_once.
Proof.
  apply (foreign_keys_hold
           (CompleteSurvey (Demo.request_of Demo.seed Demo.alice) 1 (Some Demo.answers))
           10 Demo.seed).
  split; [|split; [|split]]; apply map_Forall_empty.
Defined.

Lemma users_constraints_alter (f : User → User) (k : string) :
  (∀ u, User.id (f u) = User.id u ∧ User.email (f u) = User.email u) →
  keeps (on users users_constraints) (modify (set_users (alter f k))).
Proof.
  intros Hf. apply keeps_modify. intros st [Hid Hemail]. unfold on. cbn. split.
  - intros j u Hu. apply lookup_alter_Some in Hu as [(-> & u0 & Hu & ->) | [_ Hu]].
    + destruct (Hf u0) as [-> _]. by apply Hid.
    + by apply Hid.
  - intros j j' u u' Hu Hu'.
    apply lookup_alter_Some in Hu as [(-> & u0 & Hu & ->) | [_ Hu]];
      apply lookup_alter_Some in Hu' as [(-> & u0' & Hu' & ->) | [_ Hu']];
      rewrite ?(proj2 (Hf _)); by eapply Hemail.
Qed.

Lemma email_taken_false_iff (m : gmap string User) (self e : string) :
  email_taken m self e = false
  ↔ ∀ k u, m !! k = Some u → k ≠ self → User.email u ≠ e.
Proof.
  unfold email_taken. rewrite bool_decide_eq_false. unfold map_Exists. split.
  - intros Hnone k u Hk Hne He. apply Hnone. by exists k, u.
  - intros Hfree (k & u & Hk & Hne & He). by eapply Hfree.
Qed.

Lemma users_constraints_upsertUser userData now :
  keeps (on users users_constraints) (upsertUser userData now).
Proof.
  intros st [Hid Hemail]. unfold upsertUser, on.
  destruct (users st !! UpsertUser.id userData) as [old|] eqn:Hold;
    destruct (email_taken _ _ _) eqn:Hfree; cbn; try done.
  all: rewrite email_taken_false_iff in Hfree; split.
  all: try (intros j u Hu; apply lookup_insert_Some in Hu as [[<- <-]|[_ Hu]];
            [done | by apply Hid]).
  all: intros j j' u u' Hu Hu';
       apply lookup_insert_Some in Hu as [[<- <-]|[Hj Hu]];
       apply lookup_insert_Some in Hu' as [[<- <-]|[Hj' Hu']]; cbn; try done;
       [ intros He; by destruct (Hfree j' u' Hu')
       | intros He; by destruct (Hfree j u Hu)
       | by eapply Hemail ].
Qed.

(** X18: the constraints of the users table hold in every store the
    operations reach: each user is stored under its id, and no two users
    share an e-mail. *)
Theorem users_keyed_by_id_with_unique_emails (op : Operation) (now : Timestamp)
    (st : Store) :
  users_constraints (users st) → users_constraints (users (perform op now st)).
Proof.
  apply (perform_keeps (on users users_constraints)); intros.
  - unfold createSurveyResponse, updateUserGemBalance. keeps_steps;
      first [ by apply on_modify | by apply users_constraints_alter ].
  - by apply on_createTransaction.
  - by apply on_createSecurityLog.
  - by apply on_createWithdrawalRequest.
  - by apply on_updateWithdrawalStatus.
  - by apply users_constraints_alter.
  - unfold updateUserStatus. keeps_steps. by apply users_constraints_alter.
  - apply users_constraints_upsertUser.
  - by apply users_constraints_alter.
Qed.

Lemma users_keyed_by_id_with_unique_emails_witness :
  let alice := UpsertUser.mk "alice" "alice@example.org" None None None in
  let bob := UpsertUser.mk "bob" "bob@example.org" None None None in
  users_constraints
    (users (perform (SignIn bob) 2 (perform (SignIn alice) 1 emptyStore))).
Proof.
  apply users_keyed_by_id_with_unique_emails.
  apply users_keyed_by_id_with_unique_emails.
  split; [intros k u Hk | intros k k' u u' Hk]; cbn in Hk;
    by rewrite lookup_empty in Hk.
Defined.

(** ** What the handlers read of a stored user *)

Section Alike.
Lemma alike_ret {A} (a : A) : alike (mret a).
Proof. by intros st st' H. Qed.

Lemma alike_throw {A} (e : Thrown) : alike (throw (A := A) e).
Proof. by intros st st' H. Qed.

Lemma alike_parse {A} (input : option A) : alike (parse input).
Proof. destruct input; [apply alike_ret | apply alike_throw]. Qed.

Lemma alike_bind {A B} (m : Db A) (f : A → Db B) :
  alike m → (∀ a, alike (f a)) → alike (m ≫= f).
Proof.
  intros Hm Hf st st' H. unfold mbind, Db_bind.
  destruct (Hm st st' H) as [Hout Hst].
  destruct (m st) as [[a|e] st1], (m st') as [[a'|e'] st1']; cbn in *; try done.
  - injection Hout as <-. by apply Hf.
  - by injection Hout as <-.
Qed.

Lemma alike_gets {A} (f : Store → A) :
  (∀ st st', agree st st' → f st = f st') → alike (gets f).
Proof. intros Hf st st' H. unfold gets. cbn. by rewrite (Hf st st' H). Qed.

Lemma alike_modify (f : Store → Store) :
  (∀ st st', agree st st' → agree (f st) (f st')) → alike (modify f).
Proof. intros Hf st st' H. split; [done|]. by apply Hf. Qed.

Lemma agree_known_user (st st' : Store) (uid : string) :
  agree st st' → is_Some (users st !! uid) ↔ is_Some (users st' !! uid).
Proof.
  intros (_ & _ & _ & _ & _ & Hu). specialize (Hu uid).
  destruct Hu; split; intros [? ?]; by eauto.
Qed.

Lemma alike_references_user c uid : alike (references_user c uid).
Proof.
  intros st st' H. unfold references_user.
  pose proof (agree_known_user st st' uid H) as Hknown.
  destruct (users st !! uid), (users st' !! uid); try done.
  - destruct Hknown as [Hk _]. by destruct Hk.
  - destruct Hknown as [_ Hk]. by destruct Hk.
Qed.

Lemma alike_references_survey c sid : alike (references_survey c sid).
Proof.
  intros st st' H. unfold references_survey. pose proof H as (Hs & _).
  rewrite <- Hs. by destruct (rows (surveys st) !! sid).
Qed.

Lemma alike_references_opt {K} (check : K → Db unit) (k : option K) :
  (∀ k, alike (check k)) → alike (references_opt check k).
Proof. intros Hcheck. destruct k; cbn; [done|]. apply alike_ret. Qed.

Lemma alike_primary_key {R} c (t : Store → Table R) j :
  (∀ st st', agree st st' → t st = t st') → alike (primary_key c t j).
Proof.
  intros Ht st st' H. unfold primary_key. rewrite <- (Ht st st' H).
  by destruct (rows (t st) !! j).
Qed.

Lemma agree_set_users (f : User → User) (k : string) (st st' : Store) :
  (∀ u u', User.gemBalance u = User.gemBalance u' →
           User.gemBalance (f u) = User.gemBalance (f u')) →
  agree st st' →
  agree (set_users (alter f k) st) (set_users (alter f k) st').
Proof.
  intros Hf (? & ? & ? & ? & ? & Hu). repeat split; try done. intros j. cbn.
  specialize (Hu j). destruct (decide (k = j)) as [<-|Hne].
  - rewrite !lookup_alter_eq. destruct Hu; constructor. by apply Hf.
  - by rewrite !lookup_alter_ne.
Qed.

Lemma alike_updateUserGemBalance uid amount now :
  alike (updateUserGemBalance uid amount now).
Proof. apply alike_modify. intros st st'. by apply agree_set_users. Qed.
End Alike.

Create HintDb alike.

#[local] Hint Resolve alike_ret alike_throw alike_parse alike_references_user
  alike_references_survey alike_updateUserGemBalance : alike.

Ltac alike_steps :=
  repeat first
    [ solve [auto with alike]
    | apply alike_references_opt; intros ?
    | apply alike_bind; [|intros ?]
    | match goal with |- alike (let _ := _ in _) => cbv zeta end
    | match goal with |- alike (match ?x with _ => _ end) => destruct x end
    | match goal with |- alike (if ?x then _ else _) => destruct x end
    | apply alike_primary_key; by intros ? ? (? & ? & ? & ? & ? & ?)
    | apply alike_gets; intros ? ? (? & ? & ? & ? & ? & ?); cbn; congruence
    | apply alike_modify; intros ? ? (? & ? & ? & ? & ? & ?);
        repeat split; cbn; by try congruence ].

Lemma alike_createTransaction tx now : alike (createTransaction tx now).
Proof. unfold createTransaction. alike_steps. Qed.

Lemma alike_createSecurityLog log now : alike (createSecurityLog log now).
Proof. unfold createSecurityLog. alike_steps. Qed.

Lemma alike_createWithdrawalRequest uid request now :
  alike (createWithdrawalRequest uid request now).
Proof. unfold createWithdrawalRequest. alike_steps. Qed.

Lemma alike_updateWithdrawalStatus i status admin now :
  alike (updateWithdrawalStatus i status admin now).
Proof. unfold updateWithdrawalStatus. alike_steps. Qed.

Lemma alike_getSurvey id : alike (getSurvey id).
Proof. unfold getSurvey. alike_steps. Qed.

Lemma alike_getUserSurveyResponses uid : alike (getUserSurveyResponses uid).
Proof. unfold getUserSurveyResponses. alike_steps. Qed.

Lemma alike_getUserPendingWithdrawal uid : alike (getUserPendingWithdrawal uid).
Proof. unfold getUserPendingWithdrawal. alike_steps. Qed.

(** The one read of a stored user's columns: the balance, to add to it. *)
Lemma alike_getUser_bind {B} (uid : string) (f : option User → Db B) :
  (∀ u u', option_Forall2 (λ u u', User.gemBalance u = User.gemBalance u') u u' →
           f u = f u' ∧ alike (f u)) →
  alike (getUser uid ≫= f).
Proof.
  intros Hf st st' H. unfold getUser. unfold_db. cbn.
  pose proof H as (_ & _ & _ & _ & _ & Hu).
  destruct (Hf _ _ (Hu uid)) as [-> Halike]. by apply Halike.
Qed.

#[local] Hint Resolve alike_createTransaction alike_createSecurityLog
  alike_createWithdrawalRequest alike_updateWithdrawalStatus alike_getSurvey
  alike_getUserSurveyResponses alike_getUserPendingWithdrawal : alike.

Ltac alike_balance :=
  apply alike_getUser_bind;
  let Hbal := fresh "Hbal" in
  intros ? ? [? ? Hbal|]; cbn; rewrite ?Hbal; (split; [reflexivity|]).

Lemma alike_createSurveyResponse uid response gems now :
  alike (createSurveyResponse uid response gems now).
Proof.
  unfold createSurveyResponse. cbv zeta.
  do 6 (apply alike_bind; [alike_steps|intros ?]).
  alike_balance; alike_steps.
Qed.

#[local] Hint Resolve alike_createSurveyResponse : alike.

Lemma alike_try_catch {A} (body : Db (Response A)) (message : string) (st st' : Store) :
  alike body → agree st st' →
  (try_catch body message st).1 = (try_catch body message st').1
  ∧ agree (try_catch body message st).2 (try_catch body message st').2.
Proof.
  intros Hbody H. unfold try_catch. destruct (Hbody st st' H) as [Hout Hst].
  destruct (body st) as [[r|e] st1], (body st') as [[r'|e'] st1']; cbn in *;
    try done. by injection Hout as <-.
Qed.

(** X19: of a stored user the handlers of the user routes and the
    adjudication read nothing but its existence and its balance: run on
    two stores with the same tables and the same users with the same
    balances, whatever the users' status, verification and other columns,
    each of them gives the same answer and leaves stores that agree in
    the same way.  In particular the status the status route sets is read
    by none of them. *)
Theorem stored_users_are_read_for_balance_only (st st' : Store) (req : Request)
    (now : Timestamp) :
  agree st st' →
  (∀ surveyId responses,
     let h := postSurveyComplete req surveyId responses now in
     (h st).1 = (h st').1 ∧ agree (h st).2 (h st').2)
  ∧ (∀ body,
       let h := postWithdrawals req body now in
       (h st).1 = (h st').1 ∧ agree (h st).2 (h st').2)
  ∧ (∀ offerId provider reward title,
       let h := postOfferwallComplete req offerId provider reward title now in
       (h st).1 = (h st').1 ∧ agree (h st).2 (h st').2)
  ∧ (∀ amount description,
       let h := postOfferwallEarnings req amount description now in
       (h st).1 = (h st').1 ∧ agree (h st).2 (h st').2)
  ∧ (∀ withdrawalId body,
       let h := patchAdminWithdrawal req withdrawalId body now in
       (h st).1 = (h st').1 ∧ agree (h st).2 (h st').2).
Proof.
  intros H. split; [|split; [|split; [|split]]]; intros; subst h;
    (apply alike_try_catch; [|done]).
  - alike_steps.
  - alike_steps.
  - alike_steps.
  - alike_steps.
  - cbv zeta. apply alike_bind; [alike_steps|intros validatedData].
    apply alike_bind; [alike_steps|intros [withdrawal|]]; [|alike_steps].
    apply alike_bind; [alike_steps|intros ?].
    apply alike_bind; [|intros ?; alike_steps].
    destruct (UpdateWithdrawalStatus.status validatedData); [alike_steps|].
    alike_balance; alike_steps.
Qed.

Lemma agree_alter (f : User → User) (k : string) (st : Store) :
  (∀ u, User.gemBalance (f u) = User.gemBalance u) →
  agree st (set_users (alter f k) st).
Proof.
  intros Hf. repeat split. intros j. cbn. destruct (decide (k = j)) as [<-|Hne].
  - rewrite lookup_alter_eq. destruct (users st !! k); constructor. by rewrite Hf.
  - rewrite lookup_alter_ne by done. by destruct (users st !! j); constructor.
Qed.

Lemma stored_users_are_read_for_balance_only_witness :
  let banned := set_users (alter (with_status "banned" 25) "alice") Demo.surveyed in
  User.status <$> users banned !! "alice" = Some "banned"
  ∧ statusCode (postWithdrawals (Demo.request_of Demo.surveyed Demo.alice)
                  (Some Demo.hundred) 30 banned).1 = 200.
Proof.
  cbv zeta. split; [vm_compute; reflexivity|].
  destruct (stored_users_are_read_for_balance_only Demo.surveyed
              (set_users (alter (with_status "banned" 25) "alice") Demo.surveyed)
              (Demo.request_of Demo.surveyed Demo.alice) 30)
    as (_ & Hwithdraw & _).
  - by apply agree_alter.
  - destruct (Hwithdraw (Some Demo.hundred)) as [<- _]. vm_compute. reflexivity.
Defined.

(** ** The audit trail *)

Lemma createSecurityLog_run (log : NewSecurityLog) (now : Timestamp) (st : Store) :
  let i := nextval (securityLogs st) in
  match (createSecurityLog log now st).1 with
  | Returned l =>
      l = securityLog_row i log now
      ∧ rows (securityLogs st) !! i = None
      ∧ rows (securityLogs (createSecurityLog log now st).2)
        = <[i := l]> (rows (securityLogs st))
  | Threw _ =>
      rows (securityLogs (createSecurityLog log now st).2) = rows (securityLogs st)
  end.
Proof.
  unfold createSecurityLog. unfold_db. cbn.
  destruct (NewSecurityLog.userId log) as [uid|]; cbn;
    [destruct (users st !! uid); [|done]; cbn|];
    by destruct (rows (securityLogs st) !! nextval (securityLogs st)) eqn:Hkey.
Qed.

Section Audit.
Context (st : Store) (uid action : string) (req : Request).

Lemma ends_logged_refusal {A} (code : Z) (message : string) :
  code ≠ 200 → ends_logged st uid action req (mret (status_json (A := A) code message)).
Proof.
  intros Hcode pre Hpre. unfold audited. cbn.
  rewrite bool_decide_eq_false_2 by done. by rewrite Hpre.
Qed.

Lemma ends_logged_throw {A} (e : Thrown) :
  ends_logged st uid action req (throw (A := Response A) e).
Proof. intros pre Hpre. cbn. by rewrite Hpre. Qed.

Lemma ends_logged_bind {A B} (m : Db B) (f : B → Db (Response A)) :
  (∀ Q, keeps (on securityLogs Q) m) → (∀ b, ends_logged st uid action req (f b)) →
  ends_logged st uid action req (m ≫= f).
Proof.
  intros Hm Hf pre Hpre. unfold mbind, Db_bind.
  pose proof (untouched securityLogs m pre Hm) as Hsame.
  destruct (m pre) as [[b|e] st1]; cbn in Hsame.
  - apply Hf. congruence.
  - congruence.
Qed.

Lemma ends_logged_ret_bind {A B} (b : B) (f : B → Db (Response A)) :
  ends_logged st uid action req (f b) → ends_logged st uid action req (mret b ≫= f).
Proof. done. Qed.

Lemma ends_logged_entry {A} (log : NewSecurityLog) (now : Timestamp) (answer : A) :
  NewSecurityLog.userId log = Some uid →
  NewSecurityLog.action log = action →
  NewSecurityLog.ipAddress log = Request.ip req →
  NewSecurityLog.userAgent log = Request.userAgent req →
  ends_logged st uid action req (createSecurityLog log now ≫= λ _, mret (json answer)).
Proof.
  intros Huid Haction Hip Hagent pre Hpre. unfold mbind, Db_bind.
  pose proof (createSecurityLog_run log now pre) as Hrun. cbv zeta in Hrun.
  destruct (createSecurityLog log now pre) as [[l|e] st2]; cbn in *.
  - destruct Hrun as (-> & Hkey & Hrows). unfold audited. cbn.
    rewrite Hpre in *. by eexists.
  - by rewrite Hrun, Hpre.
Qed.

Lemma ends_logged_try_catch {A} (body : Db (Response A)) (message : string) :
  ends_logged st uid action req body →
  audited (try_catch body message st) st uid action req.
Proof.
  intros Hbody. specialize (Hbody st eq_refl). unfold try_catch.
  destruct (body st) as [[r|e] st']; [done|].
  unfold audited. cbn. done.
Qed.
End Audit.

(** The storage calls that leave the security log alone. *)
Ltac neutral :=
  let Q := fresh "Q" in
  intros Q;
  pose proof (λ tx now, on_createTransaction securityLogs Q now tx (λ _ _, eq_refl));
  pose proof (λ uid response gems now,
                on_createSurveyResponse securityLogs Q now uid response gems
                  (λ _ _, eq_refl) (λ _ _, eq_refl) (λ _ _, eq_refl));
  pose proof (λ uid request now,
                on_createWithdrawalRequest securityLogs Q now uid request
                  (λ _ _, eq_refl));
  pose proof (λ i status admin now,
                on_updateWithdrawalStatus securityLogs Q now i status admin
                  (λ _ _, eq_refl));
  pose proof (λ uid amount now,
                on_updateUserGemBalance securityLogs Q now uid amount (λ _ _, eq_refl));
  pose proof (λ uid statusUpdate now,
                on_updateUserStatus securityLogs Q now uid statusUpdate (λ _ _, eq_refl));
  keeps_steps.

Ltac audit_steps :=
  repeat first
    [ apply ends_logged_entry; reflexivity
    | apply ends_logged_refusal; discriminate
    | apply ends_logged_throw
    | match goal with |- ends_logged _ _ _ _ (let _ := _ in _) => cbv zeta end
    | match goal with |- ends_logged _ _ _ _ (match ?x with _ => _ end) => destruct x end
    | match goal with |- ends_logged _ _ _ _ (if ?x then _ else _) => destruct x end
    | apply ends_logged_bind; [neutral|intros ?] ].

(** X20: the security log is an audit trail of the writing routes: a request
    that is answered 200 has added exactly one entry to the log, under the
    session user's id, with the action of the route and the address and
    agent of the request; a request answered otherwise has added none. *)
Theorem successful_writes_are_logged (st : Store) (req : Request) (now : Timestamp) :
  let uid := User.id (Request.user req) in
  (∀ surveyId responses,
     audited (postSurveyComplete req surveyId responses now st) st uid
       "survey_completed" req)
  ∧ (∀ body,
       audited (postWithdrawals req body now st) st uid "withdrawal_requested" req)
  ∧ (∀ offerId provider reward title,
       audited (postOfferwallComplete req offerId provider reward title now st) st uid
         "offerwall_completed" req)
  ∧ (∀ amount description,
       audited (postOfferwallEarnings req amount description now st) st uid
         "offerwall_earnings" req)
  ∧ (∀ withdrawalId verdict notes,
       audited (patchAdminWithdrawal req withdrawalId
                  (Some (UpdateWithdrawalStatus.mk verdict notes)) now st) st uid
         ("withdrawal_" +:+ Verdict_str verdict) req)
  ∧ (∀ userId body,
       audited (patchAdminUserStatus req userId body now st) st uid
         "user_status_changed" req).
Proof.
  intros uid. split; [|split; [|split; [|split; [|split]]]]; intros;
    apply ends_logged_try_catch.
  - audit_steps.
  - audit_steps.
  - audit_steps.
  - audit_steps.
  - cbv zeta. cbn [parse]. apply ends_logged_ret_bind. destruct verdict; audit_steps.
  - audit_steps.
Qed.


(** ** Adjudication settles the request *)



(** ** Listings *)

#[local] Instance desc_transitive {R} (column : R → Timestamp) : Transitive (desc column).
Proof. intros a b c. unfold desc. lia. Qed.

#[local] Instance desc_total {R} (column : R → Timestamp) : Total (desc column).
Proof. intros a b. unfold desc. lia. Qed.

Lemma orderBy_desc_sorted {R} (column : R → Timestamp) (l : list R) :
  StronglySorted (desc column) (orderBy (desc column) l).
Proof. unfold orderBy. apply StronglySorted_merge_sort; apply _. Qed.

Lemma orderBy_perm {R} (ord : relation R) `{!RelDecision ord} (l : list R) :
  orderBy ord l ≡ₚ l.
Proof. apply merge_sort_Permutation. Qed.

Lemma elem_of_take_list {A} (n : nat) (l : list A) (x : A) : x ∈ take n l → x ∈ l.
Proof. intros Hin. rewrite <- (take_drop n l). apply elem_of_app. by left. Qed.

(** X22: the transactions route answers with the ten most recent transactions
    of the session user: at most ten rows, each a stored transaction of the
    user, newest first, and no stored transaction of the user that is left
    out is newer than one that is listed. *)
Theorem getTransactions_most_recent (st : Store) (req : Request) :
  ∃ recent,
    getTransactions req st = (json recent, st)
    ∧ length recent
      = (10 `min` size (rows_where (λ t, Transaction.userId t = User.id (Request.user req))
                                   (transactions st)))%nat
    ∧ StronglySorted (desc Transaction.createdAt) recent
    ∧ (∀ t, t ∈ recent →
         (∃ i, rows (transactions st) !! i = Some t)
         ∧ Transaction.userId t = User.id (Request.user req))
    ∧ (∀ t t' i, t ∈ recent → t' ∉ recent →
         rows (transactions st) !! i = Some t' →
         Transaction.userId t' = User.id (Request.user req) →
         Transaction.createdAt t' ≤ Transaction.createdAt t).
Proof.
  unfold getTransactions, getUserTransactions. unfold_db.
  set (mine := filter (λ t, Transaction.userId t = User.id (Request.user req))
                 (select (transactions st))).
  set (sorted := orderBy (desc Transaction.createdAt) mine).
  assert (Hsorted : StronglySorted (desc Transaction.createdAt) sorted)
    by apply orderBy_desc_sorted.
  assert (Hmine : ∀ t, t ∈ sorted ↔
            (∃ i, rows (transactions st) !! i = Some t)
            ∧ Transaction.userId t = User.id (Request.user req)).
  { intros t. unfold sorted, mine.
    rewrite elem_of_orderBy, list_elem_of_filter, elem_of_select. tauto. }
  rewrite <- (take_drop 10 sorted) in Hsorted.
  eexists. split; [reflexivity|]. repeat split.
  - rewrite length_take. f_equal. unfold sorted.
    rewrite orderBy_perm. apply length_select_where.
  - by apply StronglySorted_app_1_l in Hsorted.
  - apply Hmine. by eapply elem_of_take_list.
  - apply Hmine. by eapply elem_of_take_list.
  - intros t t' i Hin Hout Hrow Huser.
    assert (Hin' : t' ∈ take 10 sorted ++ drop 10 sorted).
    { rewrite take_drop. apply Hmine. eauto. }
    apply elem_of_app in Hin' as [?|Hdrop]; [done|].
    apply (StronglySorted_app_1_elem_of _ _ _ t t' Hsorted Hin Hdrop).
Qed.

(** X23: each listing returns exactly the rows its condition selects, each
    once, newest first: the active surveys by creation time, the pending
    withdrawals by request time, and all users by creation time. *)
Theorem listings_exact_and_newest_first (st : Store) :
  (∃ active,
      getSurveys st = (json active, st)
      ∧ active ≡ₚ (map_to_list (rows_where (λ s, Survey.isActive s = true)
                                            (surveys st))).*2
      ∧ StronglySorted (desc Survey.createdAt) active)
  ∧ (∃ pending,
        getAdminWithdrawals st = (json pending, st)
        ∧ pending ≡ₚ (map_to_list
                        (rows_where (λ w, WithdrawalRequest.status w = "pending")
                                    (withdrawalRequests st))).*2
        ∧ StronglySorted (desc WithdrawalRequest.requestedAt) pending)
  ∧ (∃ all,
        getAdminUsers st = (json all, st)
        ∧ all ≡ₚ (map_to_list (users st)).*2
        ∧ StronglySorted (desc User.createdAt) all).
Proof.
  repeat split.
  - eexists. split; [reflexivity|]. split.
    + rewrite orderBy_perm. apply select_where.
    + apply orderBy_desc_sorted.
  - eexists. split; [reflexivity|]. split.
    + rewrite orderBy_perm. apply select_where.
    + apply orderBy_desc_sorted.
  - eexists. split; [reflexivity|]. split.
    + apply orderBy_perm.
    + apply orderBy_desc_sorted.
Qed.

(** ** The figures of the dashboard *)

Lemma length_filter_two {A} (P Q : A → Prop) `{!∀ x, Decision (P x)}
    `{!∀ x, Decision (Q x)} (l : list A) :
  (∀ x, P x → Q x → False) →
  (length (filter P l) + length (filter Q l) ≤ length l)%nat.
Proof.
  intros Hdisjoint. induction l as [|x l IH]; [done|].
  rewrite !filter_cons. destruct (decide (P x)), (decide (Q x)); cbn; try lia.
  by destruct (Hdisjoint x).
Qed.

Lemma length_filter_take {A} (P : A → Prop) `{!∀ x, Decision (P x)} (n : nat)
    (l : list A) :
  (length (filter P (take n l)) ≤ length (filter P l))%nat.
Proof.
  rewrite <- (take_drop n l) at 2. rewrite filter_app, length_app. lia.
Qed.

Lemma length_filter_mine (st : Store) (uid type : string) :
  length (filter (λ t, Transaction.type t = type)
            (orderBy (desc Transaction.createdAt)
               (filter (λ t, Transaction.userId t = uid) (select (transactions st)))))
  = size (rows_where (λ t, Transaction.userId t = uid ∧ Transaction.type t = type)
            (transactions st)).
Proof.
  rewrite orderBy_perm, list_filter_filter.
  rewrite <- (length_select_where
                (λ t, Transaction.userId t = uid ∧ Transaction.type t = type)).
  f_equal. apply list_filter_iff. tauto.
Qed.

(** X24: the dashboard counts among the ten most recent transactions only.
    Computed from the answer of the transactions route, the numbers of
    completed surveys and of completed offers sum to ten at most and never
    exceed the numbers of the user's [survey_reward] and [offerwall_reward]
    transactions; they are these numbers when the user has no more than
    ten transactions. *)
Theorem dashboard_counts_the_recent_ten (st : Store) (req : Request) :
  let uid := User.id (Request.user req) in
  let rewards type :=
    size (rows_where (λ t, Transaction.userId t = uid ∧ Transaction.type t = type)
            (transactions st)) in
  ∃ recent,
    getTransactions req st = (json recent, st)
    ∧ (completedSurveys recent + completedOffers recent ≤ 10)%nat
    ∧ (completedSurveys recent ≤ rewards "survey_reward")%nat
    ∧ (completedOffers recent ≤ rewards "offerwall_reward")%nat
    ∧ ((size (rows_where (λ t, Transaction.userId t = uid) (transactions st)) ≤ 10)%nat →
       completedSurveys recent = rewards "survey_reward"
       ∧ completedOffers recent = rewards "offerwall_reward").
Proof.
  intros uid rewards. unfold getTransactions, getUserTransactions. unfold_db.
  eexists. split; [reflexivity|]. fold uid.
  set (sorted := orderBy (desc Transaction.createdAt)
                   (filter (λ t, Transaction.userId t = uid) (select (transactions st)))).
  unfold completedSurveys, completedOffers, rewards. repeat split.
  - etransitivity; [apply length_filter_two|].
    + intros t Hs Ho. rewrite Hs in Ho. discriminate Ho.
    + rewrite length_take. lia.
  - rewrite <- length_filter_mine. apply length_filter_take.
  - rewrite <- length_filter_mine. apply length_filter_take.
  - rewrite <- length_filter_mine. fold sorted. rewrite take_ge; [done|].
    unfold sorted. by rewrite orderBy_perm, length_select_where.
  - rewrite <- length_filter_mine. fold sorted. rewrite take_ge; [done|].
    unfold sorted. by rewrite orderBy_perm, length_select_where.
Qed.
